(** * setup-tool-action: the acquisition and placement engine of [main.ts]

    A shallow embedding of [src/main.ts], and of the two later revisions of
    the same file (the one that keeps the destination directory in [destDir],
    the one that takes it from the input [targetDir]), together with the
    properties the design document states about it.

    The action talks to the outside through [@actions/tool-cache],
    [@actions/core], Node's [fs], [os] and [path], and the modules
    [./github], [./inputs] and [./interpolate].  None of them belongs to the
    embedded file: they are modelled at their interface.  Every call leaves
    an [Event] carrying its arguments and its outcome, whether a call
    succeeds is decided by a [World] (an arbitrary oracle, so that the
    theorems hold whatever the collaborators do), and the part of their
    effect the properties talk about (which paths exist, which identities
    are cached) is kept in a [State]. *)

From stdpp Require Import base gmap sets strings list.

Local Open Scope string_scope.
Local Open Scope list_scope.

(** ** JavaScript values *)

(** What a [throw] carries: an [Error] object or any other value
    ([run] tells them apart with [instanceof Error]). *)
Inductive Thrown : Type :=
  | ErrorObject (message : string)
  | OtherValue (text : string).

(** Completion of a call: a value, or an exception. *)
Inductive Result (A : Type) : Type :=
  | Returned (a : A)
  | Threw (e : Thrown).
Arguments Returned {A} a.
Arguments Threw {A} e.

#[global] Instance Thrown_eq_dec : EqDecision Thrown.
Proof. solve_decision. Defined.

(** Truthiness of a [string | null] and of a [string]: [null], [undefined]
    and the empty string are falsy. *)
Definition truthy (v : option string) : bool :=
  match v with
  | Some s => bool_decide (s ≠ EmptyString)
  | None => false
  end.

Definition truthy_string (s : string) : bool := bool_decide (s ≠ EmptyString).

(** ** Paths *)

(** [path.join]: the non-empty segments joined by the separator, ["."] when
    there is none.  (Node then normalises ["."], [".."] and repeated
    separators; the segments used here are taken as normal already.) *)
Definition path_join (segments : list string) : string :=
  match filter (λ s, s ≠ EmptyString) segments with
  | [] => "."
  | s :: rest => foldl (λ acc x, acc +:+ "/" +:+ x) s rest
  end.

(** [inside dir p]: [p] is [dir] or lies below it. *)
Definition inside (dir p : string) : bool :=
  bool_decide (p = dir) || String.prefix (dir +:+ "/") p.

(** ** Data of [main.ts] *)

(** [type Extract = (archivePath, toDir) => Promise<string>]: the four
    extraction operations of the tool cache. *)
Inductive Extract : Type :=
  | extractTar
  | extractZip
  | extract7z
  | extractXar.

#[global] Instance Extract_eq_dec : EqDecision Extract.
Proof. solve_decision. Defined.

(** [type PkgExtension = "tar.gz" | "zip" | "7z" | "xar"]. *)
Definition PkgExtension : list string := ["tar.gz"; "zip"; "7z"; "xar"].

(** [getExtract]: a [switch] over the extension; an extension outside
    [PkgExtension] (the caller casts with [as PkgExtension]) matches no
    [case] and the function falls off its end. *)
Definition getExtract (ext : string) : option Extract :=
  if decide (ext = "tar.gz") then Some extractTar
  else if decide (ext = "zip") then Some extractZip
  else if decide (ext = "7z") then Some extract7z
  else if decide (ext = "xar") then Some extractXar
  else None.

Record ToolConfig : Type := mkToolConfig {
  name : string;
  version : string;
  arch : string
}.

Record ArchiveConfig : Type := mkArchiveConfig {
  url : string;
  subdir : option string;
  extract : option Extract
}.

Record ReleaseConfig : Type := mkRelease {
  tool : ToolConfig;
  archive : ArchiveConfig;
  githubToken : option string
}.

(** ** Collaborators *)

(** HTTP headers handed to [tc.downloadTool]. *)
Definition Headers : Type := list (string * string).

(** What [github.findReleaseAsset] resolves to. *)
Record ReleaseAsset : Type := mkAsset {
  asset_url : string;
  asset_auth : option string;
  asset_headers : option Headers
}.

(** What [getInputs] hands to [mkReleaseConfig]. *)
Record Inputs : Type := mkInputs {
  in_name : string;
  in_version : string;
  in_url : string;
  in_subdir : option string;
  in_os : string;
  in_arch : string;
  in_ext : string;
  in_noExtract : bool;
  in_githubToken : option string
}.

(** The variables offered to [interpolate]: [{ name, version, os, arch, ext }]. *)
Record TemplateVars : Type := mkVars {
  v_name : string;
  v_version : string;
  v_os : string;
  v_arch : string;
  v_ext : string
}.

(** Identity of a cache slot: (name, version, architecture). *)
Abbreviation ToolKey := (string * string * string)%type.

(** The part of the machine the properties are about. *)
Record State : Type := mkState {
  fs : gset string;              (* the paths that exist *)
  cache : gmap ToolKey string;   (* the tool cache: identity -> directory *)
  draws : nat                    (* random names and temporary names drawn so far *)
}.

(** One call to a collaborator, with its arguments and its outcome. *)
Inductive Event : Type :=
  | CallFindReleaseAsset (u token : string) (r : Result ReleaseAsset)
  | CallMkdirSync (p : string) (r : Result unit)
  | CallDownloadTool (u : string) (dest : option string)
      (auth : option string) (headers : option Headers) (r : Result string)
  | CallChmodSync (p mode : string) (r : Result unit)
  | CallCacheDir (sourceDir n v a : string) (r : Result string)
  | CallRmSync (p : string) (r : Result unit)
  | CallExtract (x : Extract) (archivePath toDir : string) (r : Result string)
  | CallCpSync (src dst : string) (r : Result unit)
  | CallFind (n v a : string) (r : Result string)
  | CallAddPath (dir : string)
  | CallSetFailed (e : Thrown).

(** The environment of a run.  The [_fails] fields decide, from the
    arguments and the current state, whether a call throws and what;
    [find_result] is what [tc.find] makes of a name, a version and an
    architecture given what is registered (it resolves the version by its own
    rules, and may throw). *)
Record World : Type := mkWorld {
  homedir : string;                                 (* os.homedir() *)
  container_id : option string;                      (* process.env.CONTAINER_ID *)
  platform : string;                                 (* process.platform *)
  os_arch : string;                                  (* process.arch *)
  random_name : nat → string;                       (* Math.random().toString(36).slice(2) *)
  temp_download : nat → string;                     (* the name tc.downloadTool picks *)
  cache_root : string;                               (* the tool cache directory *)
  find_result : string → string → string → gmap ToolKey string → Result string;
  getInputs : string → string → Result Inputs;
  interpolate : string → TemplateVars → string;
  findReleaseAsset_result : string → string → State → Result ReleaseAsset;
  mkdirSync_fails : string → State → option Thrown;
  downloadTool_fails : string → string → State → option Thrown;
  chmodSync_fails : string → State → option Thrown;
  cacheDir_fails : string → ToolKey → State → option Thrown;
  rmSync_fails : string → State → option Thrown;
  extract_fails : Extract → string → string → State → option Thrown;
  cpSync_fails : string → string → State → option Thrown
}.

(** ** The monad of asynchronous, throwing, effectful code

    A computation takes the state and yields its completion, the state it
    leaves (also when it throws: nothing is rolled back) and the calls it
    made, oldest first.  [await] is sequencing. *)
Definition M (A : Type) : Type := State → Result A * State * list Event.

#[global] Instance M_ret : MRet M := λ A a s, (Returned a, s, []).

#[global] Instance M_bind : MBind M := λ A B f c s,
  match c s with
  | (Returned a, s1, t1) =>
      match f a s1 with
      | (r, s2, t2) => (r, s2, t1 ++ t2)
      end
  | (Threw e, s1, t1) => (Threw e, s1, t1)
  end.

Definition throw {A : Type} (e : Thrown) : M A := λ s, (Threw e, s, []).

(** [try { body } catch (error) { handler(error) }]. *)
Definition try_catch {A : Type} (body : M A) (handler : Thrown → M A) : M A :=
  λ s,
    match body s with
    | (Returned a, s1, t1) => (Returned a, s1, t1)
    | (Threw e, s1, t1) =>
        match handler e s1 with
        | (r, s2, t2) => (r, s2, t1 ++ t2)
        end
    end.

(** A call that changes no state the model keeps. *)
Definition effect_free (fails : State → option Thrown) (ev : Result unit → Event) : M unit :=
  λ s,
    match fails s with
    | Some e => (Threw e, s, [ev (Threw e)])
    | None => (Returned (), s, [ev (Returned ())])
    end.

(** ** The collaborators as computations *)

(** [github.findReleaseAsset(url, token)]. *)
Definition findReleaseAsset (w : World) (u token : string) : M ReleaseAsset :=
  λ s,
    let r := findReleaseAsset_result w u token s in
    (r, s, [CallFindReleaseAsset u token r]).

(** [fs.existsSync(p)]: a read, it never throws. *)
Definition existsSync (p : string) : M bool :=
  λ s, (Returned (bool_decide (p ∈ fs s)), s, []).

(** [fs.mkdirSync(p, { recursive: true })]. *)
Definition mkdirSync (w : World) (p : string) : M unit :=
  λ s,
    match mkdirSync_fails w p s with
    | Some e => (Threw e, s, [CallMkdirSync p (Threw e)])
    | None =>
        (Returned (), mkState ({[p]} ∪ fs s) (cache s) (draws s),
         [CallMkdirSync p (Returned ())])
    end.

(** [Math.random().toString(36).slice(2)]. *)
Definition math_random (w : World) : M string :=
  λ s, (Returned (random_name w (draws s)),
        mkState (fs s) (cache s) (S (draws s)), []).

(** [tc.downloadTool(url, dest, auth, headers)]: the file is written at
    [dest], or at a temporary path of the tool cache's choosing when [dest]
    is [undefined]; the path written is returned. *)
Definition downloadTool (w : World) (u : string) (dest : option string)
    (auth : option string) (headers : option Headers) : M string :=
  λ s,
    let target := default (temp_download w (draws s)) dest in
    match downloadTool_fails w u target s with
    | Some e => (Threw e, s, [CallDownloadTool u dest auth headers (Threw e)])
    | None =>
        (Returned target,
         mkState ({[target]} ∪ fs s) (cache s)
                 (match dest with Some _ => draws s | None => S (draws s) end),
         [CallDownloadTool u dest auth headers (Returned target)])
    end.

(** [fs.chmodSync(p, mode)]. *)
Definition chmodSync (w : World) (p mode : string) : M unit :=
  effect_free (chmodSync_fails w p) (CallChmodSync p mode).

(** The directory of the tool cache that belongs to an identity. *)
Definition tool_path (w : World) (k : ToolKey) : string :=
  path_join [cache_root w; k.1.1; k.1.2; k.2].

(** [tc.cacheDir(sourceDir, tool, version, arch)]: registers the identity
    and returns its cache directory.  ([cache] records what was registered;
    the files the tool cache keeps for an entry are not on the disk of the
    model.) *)
Definition cacheDir (w : World) (sourceDir n v a : string) : M string :=
  λ s,
    match cacheDir_fails w sourceDir (n, v, a) s with
    | Some e => (Threw e, s, [CallCacheDir sourceDir n v a (Threw e)])
    | None =>
        let p := tool_path w (n, v, a) in
        (Returned p, mkState (fs s) (<[(n, v, a) := p]> (cache s)) (draws s),
         [CallCacheDir sourceDir n v a (Returned p)])
    end.

(** [tc.find(tool, version, arch)]: the cached directory, or the empty
    string on a miss, as the tool cache resolves the version against what is
    registered. *)
Definition tc_find (w : World) (n v a : string) : M string :=
  λ s,
    let r := find_result w n v a (cache s) in
    (r, s, [CallFind n v a r]).

(** [fs.rmSync(p, { recursive: true, force: true })]: [p] and everything
    below it is gone. *)
Definition rmSync (w : World) (p : string) : M unit :=
  λ s,
    match rmSync_fails w p s with
    | Some e => (Threw e, s, [CallRmSync p (Threw e)])
    | None =>
        (Returned (),
         mkState (filter (λ q, inside p q = false) (fs s)) (cache s) (draws s),
         [CallRmSync p (Returned ())])
    end.

(** Calling an [Extract]: the archive is unpacked into [toDir], which is
    returned. *)
Definition call_extract (w : World) (x : Extract) (archivePath toDir : string) : M string :=
  λ s,
    match extract_fails w x archivePath toDir s with
    | Some e => (Threw e, s, [CallExtract x archivePath toDir (Threw e)])
    | None =>
        (Returned toDir, mkState ({[toDir]} ∪ fs s) (cache s) (draws s),
         [CallExtract x archivePath toDir (Returned toDir)])
    end.

(** [fs.cpSync(src, dst)]. *)
Definition cpSync (w : World) (src dst : string) : M unit :=
  λ s,
    match cpSync_fails w src dst s with
    | Some e => (Threw e, s, [CallCpSync src dst (Threw e)])
    | None =>
        (Returned (), mkState ({[dst]} ∪ fs s) (cache s) (draws s),
         [CallCpSync src dst (Returned ())])
    end.

(** [core.addPath(dir)] and [core.setFailed(error)]. *)
Definition addPath (dir : string) : M unit := λ s, (Returned (), s, [CallAddPath dir]).
Definition setFailed (e : Thrown) : M unit := λ s, (Returned (), s, [CallSetFailed e]).

(** [core.group(name, fn)] runs [fn] between two log markers.  The lines
    written by [core.debug] and [core.info] are left out of the embedding. *)
Definition group {A : Type} (title : string) (fn : M A) : M A := fn.

(** Using a variable declared with [var x: string;] and not yet assigned
    hands [undefined] to the callee, which throws. *)
Definition assigned (x : option string) : M string :=
  match x with
  | Some v => mret v
  | None => throw (ErrorObject "The path argument must be of type string. Received undefined")
  end.

(** [{ url: archive.url, auth: undefined, headers: undefined }]. *)
Definition public_asset (u : string) : ReleaseAsset := mkAsset u None None.

(** ** [src/main.ts] *)

Module MainTs.

(** [mkReleaseConfig(platform, osArch)]. *)
Definition mkReleaseConfig (w : World) (platform osArch : string) : Result ReleaseConfig :=
  match getInputs w platform osArch with
  | Threw e => Threw e
  | Returned i =>
      let templateVars :=
        mkVars (in_name i) (in_version i) (in_os i) (in_arch i) (in_ext i) in
      let url := interpolate w (in_url i) templateVars in
      let subdir :=
        if truthy (in_subdir i)
        then Some (interpolate w (default EmptyString (in_subdir i)) templateVars)
        else None in
      Returned
        {| tool := {| name := in_name i; version := in_version i; arch := osArch |};
           archive :=
             {| url := url;
                subdir := subdir;
                extract := if in_noExtract i then None else getExtract (in_ext i) |};
           githubToken := in_githubToken i |}
  end.

(** [download(releaseConfig)]. *)
Definition download (w : World) (releaseConfig : ReleaseConfig) : M string :=
  let tool := tool releaseConfig in
  let archive := archive releaseConfig in
  let githubToken := githubToken releaseConfig in
  let subdir := subdir archive in
  let extract := extract archive in
  let inContainer : bool := bool_decide (container_id w ≠ None) in
  asset ←
    (if truthy githubToken
     then group "Handling as private GitHub URL"
            (findReleaseAsset w (url archive) (default EmptyString githubToken))
     else mret (public_asset (url archive)));
  let url := asset_url asset in
  let auth := asset_auth asset in
  let headers := asset_headers asset in
  '(dest, tmpDir) ←
    (if inContainer then
       let dest := path_join [homedir w; ".local"; "bin"] in
       present ← existsSync dest;
       _ ← (if negb present then mkdirSync w dest else mret ());
       mret (dest, None)
     else
       r ← math_random w;
       let tmpDir := path_join [homedir w; "tmp"; r] in
       mret (path_join [tmpDir; name tool], Some tmpDir));
  group ("Downloading " +:+ name tool +:+ " from " +:+ url)
    match extract with
    | None =>
        (* directly download executable *)
        _ ← downloadTool w url (Some dest) auth headers;
        _ ← chmodSync w dest "755";
        if negb inContainer then
          (* let tool-cache do its job *)
          ret ← cacheDir w dest (name tool) (version tool) (arch tool);
          _ ← (t ← assigned tmpDir; rmSync w t);
          mret ret
        else
          (* the file is already in the target dir, just return it *)
          mret (path_join [dest; name tool])
    | Some extract =>
        (* download archive and get tool inside it *)
        archivePath ← downloadTool w url None auth headers;
        r ← math_random w;
        let archiveDest := path_join [homedir w; "tmp"; r] in
        extracted ← call_extract w extract archivePath archiveDest;
        let releaseFolder :=
          if truthy subdir then path_join [extracted; default EmptyString subdir] else extracted in
        if inContainer then
          (* in container, just copy the extracted directory to the final destination *)
          _ ← cpSync w releaseFolder dest;
          _ ← rmSync w archiveDest;
          _ ← rmSync w archivePath;
          mret (path_join [dest; name tool])
        else
          (* non-container: tool-ize the extracted directory *)
          ret ← cacheDir w releaseFolder (name tool) (version tool) (arch tool);
          _ ← rmSync w archiveDest;
          _ ← rmSync w archivePath;
          mret ret
    end.

(** [findOrDownload(releaseConfig)]. *)
Definition findOrDownload (w : World) (releaseConfig : ReleaseConfig) : M string :=
  let tool := tool releaseConfig in
  existingDir ← tc_find w (name tool) (version tool) (arch tool);
  if truthy_string existingDir then mret existingDir
  else download w releaseConfig.

(** [run()]; [error instanceof Error ? error : String(error)] keeps an
    [Error] as it is and turns any other value into its text. *)
Definition run (w : World) : M unit :=
  try_catch
    (config ← (λ s, (mkReleaseConfig w (platform w) (os_arch w), s, [])) : M ReleaseConfig;
     dir ← findOrDownload w config;
     addPath dir)
    (λ error, setFailed error).

End MainTs.

(** ** The revision of [main.ts] with [destDir] ([unnamed/part_001])

    The same file after the destination directory and the destination file
    were given a variable each; [getExtract], [mkReleaseConfig],
    [findOrDownload] and [run] are those of [MainTs]. *)

Module DestDirRev.

(** [download(releaseConfig)]. *)
Definition download (w : World) (releaseConfig : ReleaseConfig) : M string :=
  let tool := tool releaseConfig in
  let archive := archive releaseConfig in
  let githubToken := githubToken releaseConfig in
  let subdir := subdir archive in
  let extract := extract archive in
  let containerID := container_id w in
  let inContainer : bool := bool_decide (containerID ≠ None) in
  asset ←
    (if truthy githubToken
     then group "Handling as private GitHub URL"
            (findReleaseAsset w (url archive) (default EmptyString githubToken))
     else mret (public_asset (url archive)));
  let url := asset_url asset in
  let auth := asset_auth asset in
  let headers := asset_headers asset in
  destDir ←
    (if inContainer then
       let destDir := path_join [homedir w; ".local"; "bin"] in
       present ← existsSync destDir;
       _ ← (if negb present then mkdirSync w destDir else mret ());
       mret destDir
     else
       r ← math_random w;
       mret (path_join [homedir w; "tmp"; r]));
  group ("Downloading " +:+ name tool +:+ " from " +:+ url)
    match extract with
    | None =>
        (* directly download executable *)
        let dest := path_join [destDir; name tool] in
        _ ← downloadTool w url (Some dest) auth headers;
        _ ← chmodSync w dest "755";
        if negb inContainer then
          (* let tool-cache do its job *)
          ret ← cacheDir w destDir (name tool) (version tool) (arch tool);
          _ ← rmSync w destDir;
          mret ret
        else
          (* the file is already in the target dir, just return it *)
          mret dest
    | Some extract =>
        (* download archive and get tool inside it *)
        archivePath ← downloadTool w url None auth headers;
        r ← math_random w;
        let archiveDest := path_join [homedir w; "tmp"; r] in
        extracted ← call_extract w extract archivePath archiveDest;
        let releaseFolder :=
          if truthy subdir then path_join [extracted; default EmptyString subdir] else extracted in
        if inContainer then
          (* in container, just copy the extracted directory to the final destination *)
          _ ← cpSync w releaseFolder destDir;
          _ ← rmSync w archiveDest;
          _ ← rmSync w archivePath;
          mret (path_join [destDir; name tool])
        else
          (* non-container: tool-ize the extracted directory *)
          ret ← cacheDir w releaseFolder (name tool) (version tool) (arch tool);
          _ ← rmSync w archiveDest;
          _ ← rmSync w archivePath;
          mret ret
    end.

End DestDirRev.

(** ** The revision of [main.ts] with [targetDir] ([unnamed/part_000])

    The same file once the fixed directory is an input: the tool carries an
    optional [targetDir], and the tool cache is used when there is none. *)

Module TargetDirRev.

Record ToolConfig : Type := mkToolConfig {
  name : string;
  version : string;
  arch : string;
  targetDir : option string
}.

Record ReleaseConfig : Type := mkRelease {
  tool : ToolConfig;
  archive : ArchiveConfig;
  githubToken : option string
}.

(** [download(releaseConfig)]. *)
Definition download (w : World) (releaseConfig : ReleaseConfig) : M string :=
  let tool := tool releaseConfig in
  let archive := archive releaseConfig in
  let githubToken := githubToken releaseConfig in
  let subdir := subdir archive in
  let extract := extract archive in
  asset ←
    (if truthy githubToken
     then group "Handling as private GitHub URL"
            (findReleaseAsset w (url archive) (default EmptyString githubToken))
     else mret (public_asset (url archive)));
  let url := asset_url asset in
  let auth := asset_auth asset in
  let headers := asset_headers asset in
  let useToolCache : bool := bool_decide (targetDir tool = None) in
  destDir ←
    (if useToolCache then
       r ← math_random w;
       mret (path_join [homedir w; "tmp"; r])
     else
       let destDir :=
         if truthy (targetDir tool) then default EmptyString (targetDir tool)
         else path_join [homedir w; "local"; "bin"] in
       present ← existsSync destDir;
       _ ← (if negb present then mkdirSync w destDir else mret ());
       mret destDir);
  group ("Downloading " +:+ name tool +:+ " from " +:+ url)
    match extract with
    | None =>
        (* directly download executable *)
        let dest := path_join [destDir; name tool] in
        _ ← downloadTool w url (Some dest) auth headers;
        _ ← chmodSync w dest "755";
        if useToolCache then
          (* let tool-cache do its job *)
          ret ← cacheDir w destDir (name tool) (version tool) (arch tool);
          _ ← rmSync w destDir;
          mret ret
        else
          (* the file is already in the target dir, just return it *)
          mret dest
    | Some extract =>
        (* download archive and get tool inside it *)
        archivePath ← downloadTool w url None auth headers;
        r ← math_random w;
        let archiveDest := path_join [homedir w; "tmp"; r] in
        extracted ← call_extract w extract archivePath archiveDest;
        let releaseFolder :=
          if truthy subdir then path_join [extracted; default EmptyString subdir] else extracted in
        if negb useToolCache then
          (* in container, just copy the extracted directory to the final destination *)
          _ ← cpSync w releaseFolder destDir;
          _ ← rmSync w archiveDest;
          _ ← rmSync w archivePath;
          mret (path_join [destDir; name tool])
        else
          (* non-container: tool-ize the extracted directory *)
          ret ← cacheDir w releaseFolder (name tool) (version tool) (arch tool);
          _ ← rmSync w archiveDest;
          _ ← rmSync w archivePath;
          mret ret
    end.

(** The directory a fixed install goes to: [targetDir], or
    [~/local/bin] when it is empty. *)
Definition fixed_directory (w : World) (c : ReleaseConfig) : string :=
  if truthy (targetDir (tool c)) then default EmptyString (targetDir (tool c))
  else path_join [homedir w; "local"; "bin"].

End TargetDirRev.

(** ** Reading a trace *)

(** The exception a call ended with, if it threw. *)
Definition thrown_by (ev : Event) : option Thrown :=
  match ev with
  | CallFindReleaseAsset _ _ (Threw e)
  | CallMkdirSync _ (Threw e)
  | CallDownloadTool _ _ _ _ (Threw e)
  | CallChmodSync _ _ (Threw e)
  | CallCacheDir _ _ _ _ (Threw e)
  | CallRmSync _ (Threw e)
  | CallExtract _ _ _ (Threw e)
  | CallCpSync _ _ (Threw e)
  | CallFind _ _ _ (Threw e) => Some e
  | _ => None
  end.

Definition is_cacheDir (ev : Event) : bool :=
  match ev with CallCacheDir _ _ _ _ _ => true | _ => false end.

Definition is_rmSync (ev : Event) : bool :=
  match ev with CallRmSync _ _ => true | _ => false end.

(** Network access: resolving a private asset, or downloading. *)
Definition is_network (ev : Event) : bool :=
  match ev with
  | CallFindReleaseAsset _ _ _ | CallDownloadTool _ _ _ _ _ => true
  | _ => false
  end.

(** The directory a placement (a cache registration or a copy) takes its
    content from. *)
Definition placement_source (ev : Event) : option string :=
  match ev with
  | CallCacheDir src _ _ _ _ => Some src
  | CallCpSync src _ _ => Some src
  | _ => None
  end.

(** Where an installing call puts content: the explicit destination of a
    download, the target of a copy. *)
Definition installed_at (ev : Event) : option string :=
  match ev with
  | CallDownloadTool _ (Some dest) _ _ _ => Some dest
  | CallCpSync _ dst _ => Some dst
  | _ => None
  end.

(** The temporaries an acquisition created: the download file whose name
    the tool cache chose, the extraction directory and, outside a container,
    the file downloaded below the temporary destination root. *)
Definition temporary (container : bool) (ev : Event) : option string :=
  match ev with
  | CallDownloadTool _ None _ _ (Returned p) => Some p
  | CallDownloadTool _ (Some _) _ _ (Returned p) =>
      if container then None else Some p
  | CallExtract _ _ _ (Returned d) => Some d
  | _ => None
  end.

Definition temporaries (container : bool) (t : list Event) : list string :=
  omap (temporary container) t.

(** The identity of a release as a cache key. *)
Definition identity (c : ReleaseConfig) : ToolKey :=
  (name (tool c), version (tool c), arch (tool c)).

(** [process.env.CONTAINER_ID != undefined]: the fixed-directory install. *)
Definition inContainer (w : World) : bool := bool_decide (container_id w ≠ None).

(** The fixed directory of a container install, [~/.local/bin]. *)
Definition fixed_directory (w : World) : string :=
  path_join [homedir w; ".local"; "bin"].

(** The release folder as the design document words it: the extraction
    root joined with the subdirectory when one is given, the extraction root
    itself otherwise. *)
Definition release_folder (extracted : string) (subdirectory : option string) : string :=
  match subdirectory with
  | Some d => path_join [extracted; d]
  | None => extracted
  end.

(** The placement [ev] of a run with trace [t] takes its content from the
    release folder below the root the extractor [x] returned. *)
Definition placed_from (t : list Event) (x : Extract) (sd : option string)
    (ev : Event) : Prop :=
  ∀ src, placement_source ev = Some src →
    ∃ archivePath extracted,
      CallExtract x archivePath extracted (Returned extracted) ∈ t ∧
      src = release_folder extracted sd.

(** A call of the raw-binary path: no extractor, and a download only to a
    destination the engine names. *)
Definition raw_binary_call (ev : Event) : Prop :=
  match ev with
  | CallExtract _ _ _ _ => False
  | CallDownloadTool _ dest _ _ _ => is_Some dest
  | _ => True
  end.

(** A call of an acquisition without credential: the resolver is not
    asked, and a download takes the configured URL with neither token nor
    headers. *)
Definition public_call (c : ReleaseConfig) (ev : Event) : Prop :=
  match ev with
  | CallFindReleaseAsset _ _ _ => False
  | CallDownloadTool u _ auth headers _ =>
      u = url (archive c) ∧ auth = None ∧ headers = None
  | _ => True
  end.

(** A call of the raw-binary install of the tool [n] into the directory
    [root]: the binary goes to [root/n], that file is made executable,
    nothing is registered in the cache. *)
Definition raw_fixed_call (root n : string) (ev : Event) : Prop :=
  match ev with
  | CallDownloadTool _ dest _ _ _ => dest = Some (path_join [root; n])
  | CallChmodSync p mode _ => p = path_join [root; n] ∧ mode = "755"
  | CallCacheDir _ _ _ _ _ => False
  | _ => True
  end.

(** [mentions needle hay]: [needle] occurs in [hay]. *)
Fixpoint mentions (needle hay : string) : bool :=
  String.prefix needle hay ||
  match hay with
  | EmptyString => false
  | String _ rest => mentions needle rest
  end.

(** The text an exception shows. *)
Definition text_of (e : Thrown) : string :=
  match e with ErrorObject m => m | OtherValue v => v end.

(** An error wrapped with context names at least the tool it was acquiring. *)
Definition names_identity (e : Thrown) (c : ReleaseConfig) : Prop :=
  mentions (name (tool c)) (text_of e) = true.

(** ** Sample runs *)

Definition sample_inputs : Inputs :=
  {| in_name := "foo"; in_version := "1.2.0";
     in_url := "https://example.com/foo-1.2.0.tar.gz";
     in_subdir := Some "foo-1.2.0"; in_os := "linux"; in_arch := "x64";
     in_ext := "tar.gz"; in_noExtract := false; in_githubToken := None |}.

(** Whether a character is a decimal digit. *)
Definition is_digit (ch : Ascii.ascii) : bool :=
  Nat.leb 48 (Ascii.nat_of_ascii ch) && Nat.leb (Ascii.nat_of_ascii ch) 57.

(** The number of dots (character 46) of a version written as runs of
    digits separated by single dots; nothing for any other string. *)
Fixpoint version_dots (v : string) (in_number : bool) (dots : nat) : option nat :=
  match v with
  | EmptyString => if in_number then Some dots else None
  | String ch rest =>
      if is_digit ch then version_dots rest true dots
      else if Nat.eqb (Ascii.nat_of_ascii ch) 46 then
        (if in_number then version_dots rest false (S dots) else None)
      else None
  end.

(** A version the sample tool cache takes as explicit: MAJOR.MINOR.PATCH in
    digits ([1.2.0] is, [1.2] is not). *)
Definition explicit_version (v : string) : bool :=
  match version_dots v false 0 with
  | Some 2 => true
  | _ => false
  end.

(** The lookup of the sample tool cache.  A name and a version are
    required; an explicit version is looked up as it is; any other version
    is a range over the explicit versions registered, and the sample runs
    register none that a range matches. *)
Definition tool_cache_find (n v a : string) (m : gmap ToolKey string) : Result string :=
  if bool_decide (n = EmptyString) then Threw (ErrorObject "toolName parameter is required")
  else if bool_decide (v = EmptyString) then
    Threw (ErrorObject "versionSpec parameter is required")
  else if explicit_version v then Returned (default EmptyString (m !! (n, v, a)))
  else Returned EmptyString.

(** [tc.find] finds what [tc.cacheDir] registered for the identity of [c]. *)
Definition finds_registered (w : World) (c : ReleaseConfig) : Prop :=
  ∀ m p, m !! identity c = Some p →
         find_result w (name (tool c)) (version (tool c)) (arch (tool c)) m = Returned p.

(** A runner outside a container on which every call succeeds. *)
Definition world_cached : World :=
  {| homedir := "/home/runner";
     container_id := None;
     platform := "linux";
     os_arch := "x64";
     random_name := λ n, match n with 0 => "r0" | 1 => "r1" | _ => "r2" end;
     temp_download := λ n, match n with 0 => "/tmp/dl0" | _ => "/tmp/dl1" end;
     cache_root := "/opt/hostedtoolcache";
     find_result := tool_cache_find;
     getInputs := λ _ _, Returned sample_inputs;
     interpolate := λ template _, template;
     findReleaseAsset_result := λ u _ _, Returned (mkAsset u (Some "token") None);
     mkdirSync_fails := λ _ _, None;
     downloadTool_fails := λ _ _ _, None;
     chmodSync_fails := λ _ _, None;
     cacheDir_fails := λ _ _ _, None;
     rmSync_fails := λ _ _, None;
     extract_fails := λ _ _ _ _, None;
     cpSync_fails := λ _ _ _, None |}.

(** The same runner inside a container. *)
Definition world_container : World :=
  {| homedir := homedir world_cached;
     container_id := Some "4f2a";
     platform := platform world_cached;
     os_arch := os_arch world_cached;
     random_name := random_name world_cached;
     temp_download := temp_download world_cached;
     cache_root := cache_root world_cached;
     find_result := find_result world_cached;
     getInputs := getInputs world_cached;
     interpolate := interpolate world_cached;
     findReleaseAsset_result := findReleaseAsset_result world_cached;
     mkdirSync_fails := mkdirSync_fails world_cached;
     downloadTool_fails := downloadTool_fails world_cached;
     chmodSync_fails := chmodSync_fails world_cached;
     cacheDir_fails := cacheDir_fails world_cached;
     rmSync_fails := rmSync_fails world_cached;
     extract_fails := extract_fails world_cached;
     cpSync_fails := cpSync_fails world_cached |}.

(** The runner outside a container, handed a corrupt archive: the download
    succeeds and the extractor throws. *)
Definition world_corrupt : World :=
  {| homedir := homedir world_cached;
     container_id := None;
     platform := platform world_cached;
     os_arch := os_arch world_cached;
     random_name := random_name world_cached;
     temp_download := temp_download world_cached;
     cache_root := cache_root world_cached;
     find_result := find_result world_cached;
     getInputs := getInputs world_cached;
     interpolate := interpolate world_cached;
     findReleaseAsset_result := findReleaseAsset_result world_cached;
     mkdirSync_fails := mkdirSync_fails world_cached;
     downloadTool_fails := downloadTool_fails world_cached;
     chmodSync_fails := chmodSync_fails world_cached;
     cacheDir_fails := cacheDir_fails world_cached;
     rmSync_fails := rmSync_fails world_cached;
     extract_fails := λ _ _ _ _, Some (ErrorObject "corrupt archive");
     cpSync_fails := cpSync_fails world_cached |}.

Definition foo_tool : ToolConfig :=
  {| name := "foo"; version := "1.2.0"; arch := "x64" |}.

(** A raw binary, no credential. *)
Definition cfg_raw : ReleaseConfig :=
  {| tool := foo_tool;
     archive := {| url := "https://example.com/foo"; subdir := None; extract := None |};
     githubToken := None |}.

(** A [tar.gz] archive with the release in a subdirectory, no credential. *)
Definition cfg_archive : ReleaseConfig :=
  {| tool := foo_tool;
     archive := {| url := "https://example.com/foo-1.2.0.tar.gz";
                   subdir := Some "foo-1.2.0";
                   extract := Some extractTar |};
     githubToken := None |}.

(** The same release at another version and for another architecture. *)
Definition cfg_archive_next : ReleaseConfig :=
  {| tool := {| name := "foo"; version := "2.0.0"; arch := "arm64" |};
     archive := archive cfg_archive;
     githubToken := None |}.


(** The archive of [cfg_archive] asked for as version [1.2]. *)
Definition cfg_short_version : ReleaseConfig :=
  {| tool := {| name := "foo"; version := "1.2"; arch := "x64" |};
     archive := archive cfg_archive;
     githubToken := None |}.


(** An empty disk and an empty tool cache. *)
Definition state0 : State := {| fs := ∅; cache := ∅; draws := 0 |}.

(** ** Further readings of a trace *)

Definition is_mkdirSync (ev : Event) : bool :=
  match ev with CallMkdirSync _ _ => true | _ => false end.

Definition is_downloadTool (ev : Event) : bool :=
  match ev with CallDownloadTool _ _ _ _ _ => true | _ => false end.

Definition is_extract (ev : Event) : bool :=
  match ev with CallExtract _ _ _ _ => true | _ => false end.

(** A placement: a cache registration or a copy. *)
Definition is_placement (ev : Event) : bool :=
  match ev with
  | CallCacheDir _ _ _ _ _ | CallCpSync _ _ _ => true
  | _ => false
  end.

(** What [run] tells the runner: [core.addPath] or [core.setFailed]. *)
Definition is_report (ev : Event) : bool :=
  match ev with
  | CallAddPath _ | CallSetFailed _ => true
  | _ => false
  end.

(** How many calls of a kind a trace holds. *)
Definition calls (kind : Event → bool) (t : list Event) : nat :=
  length (List.filter kind t).

(** The step of the acquisition a call belongs to: asset resolution,
    destination, download, preparation (mode bits or extraction), placement,
    removal of temporaries. *)
Definition stage (ev : Event) : nat :=
  match ev with
  | CallFindReleaseAsset _ _ _ => 0
  | CallMkdirSync _ _ => 1
  | CallDownloadTool _ _ _ _ _ => 2
  | CallChmodSync _ _ _ => 3
  | CallExtract _ _ _ _ => 3
  | CallCacheDir _ _ _ _ _ => 4
  | CallCpSync _ _ _ => 4
  | CallRmSync _ _ => 5
  | CallFind _ _ _ _ => 0
  | CallAddPath _ => 6
  | CallSetFailed _ => 6
  end.

Fixpoint nondecreasing (l : list nat) : bool :=
  match l with
  | a :: rest =>
      match rest with
      | b :: _ => Nat.leb a b && nondecreasing rest
      | [] => true
      end
  | [] => true
  end.

(** A call of an acquisition whose asset was resolved to [asset]: the
    resolver is not asked again, and a download takes the resolved URL, token
    and headers. *)
Definition resolved_call (asset : ReleaseAsset) (ev : Event) : Prop :=
  match ev with
  | CallFindReleaseAsset _ _ _ => False
  | CallDownloadTool u _ auth headers _ =>
      u = asset_url asset ∧ auth = asset_auth asset ∧ headers = asset_headers asset
  | _ => True
  end.

(** A registration that returned. *)
Definition has_registered (ev : Event) : bool :=
  match ev with
  | CallCacheDir _ _ _ _ (Returned _) => true
  | _ => false
  end.

(** The configuration of the revision with [targetDir] that a
    configuration of [src/main.ts] becomes when the tool is given the target
    directory [d]. *)
Definition with_targetDir (c : ReleaseConfig) (d : option string)
    : TargetDirRev.ReleaseConfig :=
  {| TargetDirRev.tool :=
       {| TargetDirRev.name := name (tool c);
          TargetDirRev.version := version (tool c);
          TargetDirRev.arch := arch (tool c);
          TargetDirRev.targetDir := d |};
     TargetDirRev.archive := archive c;
     TargetDirRev.githubToken := githubToken c |}.

(** ** Further sample runs *)

(** [w] with another resolver. *)
Definition with_resolver (w : World)
    (f : string → string → State → Result ReleaseAsset) : World :=
  {| homedir := homedir w; container_id := container_id w;
     platform := platform w; os_arch := os_arch w;
     random_name := random_name w; temp_download := temp_download w;
     cache_root := cache_root w; find_result := find_result w;
     getInputs := getInputs w;
     interpolate := interpolate w;
     findReleaseAsset_result := f;
     mkdirSync_fails := mkdirSync_fails w;
     downloadTool_fails := downloadTool_fails w;
     chmodSync_fails := chmodSync_fails w;
     cacheDir_fails := cacheDir_fails w;
     rmSync_fails := rmSync_fails w;
     extract_fails := extract_fails w;
     cpSync_fails := cpSync_fails w |}.

(** [w] with other action inputs. *)
Definition with_inputs (w : World) (f : string → string → Result Inputs) : World :=
  {| homedir := homedir w; container_id := container_id w;
     platform := platform w; os_arch := os_arch w;
     random_name := random_name w; temp_download := temp_download w;
     cache_root := cache_root w; find_result := find_result w;
     getInputs := f;
     interpolate := interpolate w;
     findReleaseAsset_result := findReleaseAsset_result w;
     mkdirSync_fails := mkdirSync_fails w;
     downloadTool_fails := downloadTool_fails w;
     chmodSync_fails := chmodSync_fails w;
     cacheDir_fails := cacheDir_fails w;
     rmSync_fails := rmSync_fails w;
     extract_fails := extract_fails w;
     cpSync_fails := cpSync_fails w |}.

(** The resolver finds no asset. *)
Definition world_no_asset : World :=
  with_resolver world_cached (λ _ _ _, Threw (ErrorObject "no matching asset")).

(** Inputs naming an archive format the action does not know, and an
    architecture other than the runner's. *)
Definition rar_inputs : Inputs :=
  {| in_name := "foo"; in_version := "1.2.0";
     in_url := "https://example.com/foo-1.2.0.rar";
     in_subdir := Some EmptyString; in_os := "linux"; in_arch := "arm64";
     in_ext := "rar"; in_noExtract := false; in_githubToken := None |}.

Definition world_rar : World := with_inputs world_cached (λ _ _, Returned rar_inputs).

(** The inputs cannot be read. *)
Definition world_bad_inputs : World :=
  with_inputs world_cached (λ _ _, Threw (ErrorObject "Input required and not supplied: name")).

(** The archive of [cfg_archive] behind a credential. *)
Definition cfg_private : ReleaseConfig :=
  {| tool := foo_tool; archive := archive cfg_archive; githubToken := Some "ghp_0123" |}.

(** The raw binary of [cfg_raw] with an empty credential. *)
Definition cfg_empty_token : ReleaseConfig :=
  {| tool := foo_tool; archive := archive cfg_raw; githubToken := Some EmptyString |}.

(** A disk on which the fixed directory is there already. *)
Definition state_installed : State :=
  {| fs := {["/home/runner/.local/bin"]}; cache := ∅; draws := 0 |}.

(** ** Paths: basic facts *)

Lemma append_nonempty (a b : string) : b ≠ EmptyString → a +:+ b ≠ EmptyString.
Proof. destruct a; simpl; [done | discriminate]. Qed.

Lemma foldl_join_nonempty (rest : list string) (s : string) :
  s ≠ EmptyString → foldl (λ acc x, acc +:+ "/" +:+ x) s rest ≠ EmptyString.
Proof.
  revert s. induction rest as [|x rest IH]; intros s Hs; simpl; [done|].
  apply IH. intros Heq. destruct s; simpl in Heq; [done | discriminate].
Qed.

Lemma path_join_nonempty (segments : list string) : path_join segments ≠ EmptyString.
Proof.
  unfold path_join.
  destruct (filter (λ s, s ≠ EmptyString) segments) as [|s rest] eqn:E; [discriminate|].
  apply foldl_join_nonempty.
  assert (Hin : s ∈ filter (λ s, s ≠ EmptyString) segments) by (rewrite E; left).
  apply list_elem_of_filter in Hin. tauto.
Qed.

Lemma path_join_empty_segment (p : string) :
  p ≠ EmptyString → path_join [p; EmptyString] = p.
Proof.
  intros Hp. unfold path_join.
  rewrite filter_cons_True by done. rewrite filter_cons_False by (intros H; by apply H).
  reflexivity.
Qed.

Lemma path_join_child (dir child : string) :
  dir ≠ EmptyString → child ≠ EmptyString →
  path_join [dir; child] = dir +:+ "/" +:+ child.
Proof.
  intros Hd Hc. unfold path_join.
  rewrite filter_cons_True by done. rewrite filter_cons_True by done.
  reflexivity.
Qed.

Lemma prefix_append (a b : string) : String.prefix a (a +:+ b) = true.
Proof.
  induction a as [|c a IH]; simpl; [by destruct b|].
  destruct (Ascii.ascii_dec c c); [exact IH | done].
Qed.

Lemma inside_refl (dir : string) : inside dir dir = true.
Proof. unfold inside. by rewrite bool_decide_eq_true_2. Qed.

Lemma append_assoc (a b c : string) : (a +:+ b) +:+ c = a +:+ b +:+ c.
Proof.
  induction a as [|x a IH]; [done|].
  change (String x ((a +:+ b) +:+ c) = String x (a +:+ b +:+ c)). by rewrite IH.
Qed.

Lemma inside_join (dir child : string) :
  dir ≠ EmptyString → inside dir (path_join [dir; child]) = true.
Proof.
  intros Hd. destruct (decide (child = EmptyString)) as [->|Hc].
  - rewrite path_join_empty_segment by done. apply inside_refl.
  - rewrite path_join_child by done. unfold inside.
    rewrite <- append_assoc, prefix_append. apply orb_true_r.
Qed.

(** ** Symbolic execution *)

Arguments path_join : simpl never.
Arguments tool_path : simpl never.
Arguments inside : simpl never.

Ltac unfold_calls :=
  unfold MainTs.download, DestDirRev.download, TargetDirRev.download, group,
    findReleaseAsset, existsSync, mkdirSync, math_random, downloadTool,
    chmodSync, effect_free, cacheDir, tc_find, rmSync, call_extract, cpSync,
    assigned, throw, public_asset;
  unfold mbind, M_bind, mret, M_ret.

(* Case analysis on the innermost undecided outcome. *)
Ltac inner_case :=
  match goal with
  | |- context [match ?x with _ => _ end] =>
      lazymatch x with
      | context [match _ with _ => _ end] => fail
      | _ => destruct x eqn:?
      end
  end.

Ltac exec := unfold_calls; cbn; repeat (inner_case; cbn).

Ltac open_config c :=
  destruct c as [[?n ?v ?a] [?u ?sd ?x] ?tok]; cbn in *.

Ltac each_call := repeat apply Forall_cons_2; try apply Forall_nil_2.

(** ** Completions *)

Lemma returned_run {A : Type} (c : M A) (s : State) (a : A) :
  (c s).1.1 = Returned a → c s = (Returned a, (c s).1.2, (c s).2).
Proof. destruct (c s) as [[r s'] t]. cbn. by intros ->. Qed.

Lemma threw_run {A : Type} (c : M A) (s : State) (e : Thrown) :
  (c s).1.1 = Threw e → c s = (Threw e, (c s).1.2, (c s).2).
Proof. destruct (c s) as [[r s'] t]. cbn. by intros ->. Qed.

(** ** Extractor selection *)

Lemma getExtract_known (ext : string) :
  ext ∈ PkgExtension → is_Some (getExtract ext).
Proof.
  unfold PkgExtension. rewrite !elem_of_cons, elem_of_nil.
  intros [-> | [-> | [-> | [-> | []]]]]; vm_compute; eauto.
Qed.


Lemma download_raw_binary_calls (w : World) (c : ReleaseConfig) (s : State) :
  extract (archive c) = None →
  Forall raw_binary_call (MainTs.download w c s).2.
Proof.
  intros Hx. open_config c. subst.
  exec; each_call; cbn; eauto.
Qed.



(** ** Acquisition without credential *)

(** C10.  When [githubToken] is [null], [download] never calls the
    private-asset resolver, and every download it asks for takes
    [archive.url] unchanged, with neither token nor headers. *)
Theorem no_credential_public_download (w : World) (c : ReleaseConfig) (s : State) :
  githubToken c = None →
  Forall (public_call c) (MainTs.download w c s).2.
Proof.
  intros Htok. open_config c. subst.
  exec; each_call; cbn; eauto.
Qed.

Lemma no_credential_public_download_witness :
  githubToken cfg_archive = None ∧
  Forall (public_call cfg_archive) (MainTs.download world_cached cfg_archive state0).2.
Proof.
  split; [reflexivity|].
  apply no_credential_public_download. reflexivity.
Defined.

(** ** The release folder *)

Lemma releaseFolder_taken (extracted : string) (sd : option string) :
  truthy sd = true →
  path_join [extracted; default EmptyString sd] = release_folder extracted sd.
Proof. destruct sd; [done | discriminate]. Qed.

Lemma releaseFolder_skipped (extracted : string) (sd : option string) :
  truthy sd = false → extracted ≠ EmptyString →
  extracted = release_folder extracted sd.
Proof.
  destruct sd as [d|]; [|done]. cbn. intros Hd He.
  apply bool_decide_eq_false in Hd. apply dec_stable in Hd. subst d.
  by rewrite path_join_empty_segment.
Qed.

Lemma download_placed_from (w : World) (c : ReleaseConfig) (s : State) (x : Extract) :
  extract (archive c) = Some x →
  Forall (placed_from (MainTs.download w c s).2 x (subdir (archive c)))
         (MainTs.download w c s).2.
Proof.
  intros Hx. open_config c. subst.
  exec; each_call; intros src Hsrc; cbn in Hsrc; try discriminate Hsrc;
    injection Hsrc as <-; eexists _, _;
    (split; [repeat first [apply list_elem_of_here | apply list_elem_of_further] |
       first [ by apply releaseFolder_taken
             | apply releaseFolder_skipped; [done | apply path_join_nonempty] ]]).
Qed.

Lemma download_returned_placed (w : World) (c : ReleaseConfig) (s : State)
    (x : Extract) (p : string) :
  extract (archive c) = Some x →
  (MainTs.download w c s).1.1 = Returned p →
  Exists (λ ev, is_Some (placement_source ev)) (MainTs.download w c s).2.
Proof.
  intros Hx. open_config c. subst.
  exec; intros Hr; try discriminate Hr;
    repeat (apply Exists_cons; first [ left; cbn; by eauto | right ]).
Qed.

(** C8.  In an acquisition with extraction, every placement (cache
    registration or copy) takes its content from the release folder: the
    root the extractor returned joined with [subdir] when [subdir] is given,
    that root itself when it is not; and an acquisition that returns has
    made such a placement. *)
Theorem release_folder_resolution (w : World) (c : ReleaseConfig) (s : State)
    (x : Extract) :
  extract (archive c) = Some x →
  Forall (placed_from (MainTs.download w c s).2 x (subdir (archive c)))
         (MainTs.download w c s).2 ∧
  (∀ p, (MainTs.download w c s).1.1 = Returned p →
        Exists (λ ev, is_Some (placement_source ev)) (MainTs.download w c s).2).
Proof.
  intros Hx. split; [by apply download_placed_from|].
  intros p. by apply (download_returned_placed w c s x).
Qed.

Lemma release_folder_resolution_witness :
  Forall (placed_from (MainTs.download world_cached cfg_archive state0).2
                      extractTar (Some "foo-1.2.0"))
         (MainTs.download world_cached cfg_archive state0).2 ∧
  (∀ p, (MainTs.download world_cached cfg_archive state0).1.1 = Returned p →
        Exists (λ ev, is_Some (placement_source ev))
               (MainTs.download world_cached cfg_archive state0).2).
Proof. apply (release_folder_resolution world_cached cfg_archive state0 extractTar). reflexivity. Defined.

(** ** Placement: the tool cache against the fixed directory *)

Ltac exec_in mode := unfold_calls; rewrite ?mode; cbn; repeat (inner_case; cbn).

(* Splits a concrete trace around one of its calls. *)
Ltac split_trace :=
  first
    [ eexists [], _, _; split; [reflexivity|]
    | eexists [_], _, _; split; [reflexivity|]
    | eexists [_; _], _, _; split; [reflexivity|]
    | eexists [_; _; _], _, _; split; [reflexivity|]
    | eexists [_; _; _; _], _, _; split; [reflexivity|] ].

Lemma download_container_no_cache (w : World) (c : ReleaseConfig) (s : State) :
  inContainer w = true →
  Forall (λ ev, is_cacheDir ev = false) (MainTs.download w c s).2 ∧
  cache (MainTs.download w c s).1.2 = cache s.
Proof.
  unfold inContainer. intros Hmode. open_config c.
  exec_in Hmode; (split; [each_call; reflexivity | reflexivity]).
Qed.

Lemma download_cached_registers (w : World) (c : ReleaseConfig) (s s' : State)
    (p : string) (t : list Event) :
  inContainer w = false →
  MainTs.download w c s = (Returned p, s', t) →
  ∃ pre src post,
    t = pre ++ CallCacheDir src (name (tool c)) (version (tool c)) (arch (tool c))
                 (Returned p) :: post ∧
    Forall (λ ev, is_cacheDir ev = false) pre ∧
    Forall (λ ev, is_rmSync ev = true) post ∧
    p = tool_path w (identity c) ∧
    cache s' !! identity c = Some p.
Proof.
  unfold inContainer, identity. intros Hmode. open_config c.
  exec_in Hmode; intros Hrun; try discriminate Hrun;
    injection Hrun as <- <- <-; split_trace;
    (split; [each_call; reflexivity|]);
    (split; [each_call; reflexivity|]);
    (split; [reflexivity | cbn; apply lookup_insert_eq]).
Qed.

(** C2.  In a container (the fixed-directory install) [download] never
    calls [tc.cacheDir] and leaves the tool cache as it found it, so a
    lookup that missed before the run misses after it.  Outside a container
    (the cached install) a [download] that returns has registered the
    identity in the cache exactly once, returns the registered directory,
    and after the registration only removes temporaries. *)
Theorem placement_exclusivity :
  (∀ w c s, inContainer w = true →
     Forall (λ ev, is_cacheDir ev = false) (MainTs.download w c s).2 ∧
     cache (MainTs.download w c s).1.2 = cache s) ∧
  (∀ w c s s' p t, inContainer w = false →
     MainTs.download w c s = (Returned p, s', t) →
     ∃ pre src post,
       t = pre ++ CallCacheDir src (name (tool c)) (version (tool c)) (arch (tool c))
                    (Returned p) :: post ∧
       Forall (λ ev, is_cacheDir ev = false) pre ∧
       Forall (λ ev, is_rmSync ev = true) post ∧
       p = tool_path w (identity c) ∧
       cache s' !! identity c = Some p).
Proof.
  split.
  - exact download_container_no_cache.
  - intros w c s s' p t. apply download_cached_registers.
Qed.

Lemma placement_exclusivity_witness :
  (Forall (λ ev, is_cacheDir ev = false)
          (MainTs.download world_container cfg_archive state0).2 ∧
   cache (MainTs.download world_container cfg_archive state0).1.2 = cache state0) ∧
  ∃ pre src post,
    (MainTs.download world_cached cfg_archive state0).2
    = pre ++ CallCacheDir src "foo" "1.2.0" "x64"
               (Returned "/opt/hostedtoolcache/foo/1.2.0/x64") :: post ∧
    Forall (λ ev, is_cacheDir ev = false) pre ∧
    Forall (λ ev, is_rmSync ev = true) post ∧
    "/opt/hostedtoolcache/foo/1.2.0/x64" = tool_path world_cached (identity cfg_archive) ∧
    cache (MainTs.download world_cached cfg_archive state0).1.2 !! identity cfg_archive
    = Some "/opt/hostedtoolcache/foo/1.2.0/x64".
Proof.
  destruct placement_exclusivity as [Hfixed Hcached]. split.
  - apply Hfixed. reflexivity.
  - refine (Hcached world_cached cfg_archive state0 _ _ _ eq_refl
              (returned_run (MainTs.download world_cached cfg_archive) state0 _ _)).
    vm_compute. reflexivity.
Defined.

(** ** The fixed directory does not depend on version or architecture *)






(** ** Orchestration: the cache is consulted first *)

Lemma findOrDownload_cases (w : World) (c : ReleaseConfig) (s : State) :
  match find_result w (name (tool c)) (version (tool c)) (arch (tool c)) (cache s) with
  | Threw e =>
      MainTs.findOrDownload w c s
      = (Threw e, s,
         [CallFind (name (tool c)) (version (tool c)) (arch (tool c)) (Threw e)])
  | Returned r =>
      if truthy_string r then
        MainTs.findOrDownload w c s
        = (Returned r, s,
           [CallFind (name (tool c)) (version (tool c)) (arch (tool c)) (Returned r)])
      else
        MainTs.findOrDownload w c s
        = ((MainTs.download w c s).1.1, (MainTs.download w c s).1.2,
           CallFind (name (tool c)) (version (tool c)) (arch (tool c)) (Returned r)
           :: (MainTs.download w c s).2)
  end.
Proof.
  unfold MainTs.findOrDownload, tc_find, mbind, M_bind, mret, M_ret. cbv zeta.
  destruct (find_result w (name (tool c)) (version (tool c)) (arch (tool c)) (cache s))
    as [r|e]; [|reflexivity].
  destruct (truthy_string r); [reflexivity|].
  by destruct (MainTs.download w c s) as [[r' s'] t].
Qed.

Lemma findOrDownload_hit (w : World) (c : ReleaseConfig) (s : State) (dir : string) :
  find_result w (name (tool c)) (version (tool c)) (arch (tool c)) (cache s)
  = Returned dir →
  dir ≠ EmptyString →
  MainTs.findOrDownload w c s
  = (Returned dir, s,
     [CallFind (name (tool c)) (version (tool c)) (arch (tool c)) (Returned dir)]).
Proof.
  intros Hhit Hdir. pose proof (findOrDownload_cases w c s) as Hcases.
  rewrite Hhit in Hcases. unfold truthy_string in Hcases.
  by rewrite bool_decide_eq_true_2 in Hcases.
Qed.

Lemma findOrDownload_miss (w : World) (c : ReleaseConfig) (s : State) (r : string) :
  find_result w (name (tool c)) (version (tool c)) (arch (tool c)) (cache s)
  = Returned r →
  truthy_string r = false →
  MainTs.findOrDownload w c s
  = ((MainTs.download w c s).1.1, (MainTs.download w c s).1.2,
     CallFind (name (tool c)) (version (tool c)) (arch (tool c)) (Returned r)
     :: (MainTs.download w c s).2).
Proof.
  intros Hfind Hmiss. pose proof (findOrDownload_cases w c s) as Hcases.
  by rewrite Hfind, Hmiss in Hcases.
Qed.

Lemma findOrDownload_find_threw (w : World) (c : ReleaseConfig) (s : State) (e : Thrown) :
  find_result w (name (tool c)) (version (tool c)) (arch (tool c)) (cache s) = Threw e →
  MainTs.findOrDownload w c s
  = (Threw e, s,
     [CallFind (name (tool c)) (version (tool c)) (arch (tool c)) (Threw e)]).
Proof.
  intros Hfind. pose proof (findOrDownload_cases w c s) as Hcases.
  by rewrite Hfind in Hcases.
Qed.

Lemma findOrDownload_second_call (w : World) (c : ReleaseConfig)
    (s s1 : State) (p : string) (t1 : list Event) :
  inContainer w = false →
  finds_registered w c →
  MainTs.findOrDownload w c s = (Returned p, s1, t1) →
  find_result w (name (tool c)) (version (tool c)) (arch (tool c)) (cache s1)
  = Returned p ∧ p ≠ EmptyString.
Proof.
  intros Hmode Hfinds Hrun.
  destruct (find_result w (name (tool c)) (version (tool c)) (arch (tool c)) (cache s))
    as [r|e] eqn:Hfind.
  - destruct (truthy_string r) eqn:Hfound.
    + unfold truthy_string in Hfound. apply bool_decide_eq_true in Hfound.
      rewrite (findOrDownload_hit w c s r Hfind Hfound) in Hrun.
      injection Hrun as <- <- <-. done.
    + rewrite (findOrDownload_miss w c s r Hfind Hfound) in Hrun.
      injection Hrun as Hr Hs Ht.
      apply returned_run in Hr. rewrite Hs in Hr.
      destruct (download_cached_registers w c s s1 p _ Hmode Hr)
        as (pre & src & post & _ & _ & _ & Hp & Hcache).
      split; [by apply Hfinds|]. rewrite Hp. apply path_join_nonempty.
  - rewrite (findOrDownload_find_threw w c s e Hfind) in Hrun. discriminate Hrun.
Qed.

(** C3 (as the document states it, refuted).  Version [1.2]: the first
    [findOrDownload] downloads, registers the identity and returns its cache
    directory; the tool cache does not take [1.2] as an explicit version, so
    the lookup of the second call misses what was registered, and the second
    call downloads again. *)
Lemma resolve_twice_counterexample :
  (MainTs.findOrDownload world_cached cfg_short_version state0).1.1
  = Returned "/opt/hostedtoolcache/foo/1.2/x64" ∧
  cache (MainTs.findOrDownload world_cached cfg_short_version state0).1.2
    !! identity cfg_short_version
  = Some "/opt/hostedtoolcache/foo/1.2/x64" ∧
  (MainTs.findOrDownload world_cached cfg_short_version
     (MainTs.findOrDownload world_cached cfg_short_version state0).1.2).2
  = [CallFind "foo" "1.2" "x64" (Returned EmptyString);
     CallDownloadTool "https://example.com/foo-1.2.0.tar.gz" None None None
       (Returned "/tmp/dl1");
     CallExtract extractTar "/tmp/dl1" "/home/runner/tmp/r2"
       (Returned "/home/runner/tmp/r2");
     CallCacheDir "/home/runner/tmp/r2/foo-1.2.0" "foo" "1.2" "x64"
       (Returned "/opt/hostedtoolcache/foo/1.2/x64");
     CallRmSync "/home/runner/tmp/r2" (Returned ());
     CallRmSync "/tmp/dl1" (Returned ())] ∧
  calls is_network
    (MainTs.findOrDownload world_cached cfg_short_version
       (MainTs.findOrDownload world_cached cfg_short_version state0).1.2).2 = 1.
Proof.
  split; [vm_compute; reflexivity|].
  split; [vm_compute; reflexivity|].
  split; vm_compute; reflexivity.
Qed.

(** C3 (amended).  [findOrDownload] asks the cache first, and when
    [tc.find] returns a directory it returns that directory having made no
    other call, hence without touching the network.  Outside a container,
    once a call of [findOrDownload] has returned a path, a second call for
    the same (name, version, architecture) returns the same path after the
    cache lookup alone, provided [tc.find] finds what [tc.cacheDir]
    registered for that identity. *)
Theorem resolve_hits_what_find_finds :
  (∀ w c s dir,
     find_result w (name (tool c)) (version (tool c)) (arch (tool c)) (cache s)
     = Returned dir →
     dir ≠ EmptyString →
     MainTs.findOrDownload w c s
     = (Returned dir, s,
        [CallFind (name (tool c)) (version (tool c)) (arch (tool c)) (Returned dir)])) ∧
  (∀ w c s p s1 t1, inContainer w = false →
     finds_registered w c →
     MainTs.findOrDownload w c s = (Returned p, s1, t1) →
     ∃ t2, MainTs.findOrDownload w c s1 = (Returned p, s1, t2) ∧
           t2 = [CallFind (name (tool c)) (version (tool c)) (arch (tool c))
                   (Returned p)] ∧
           Forall (λ ev, is_network ev = false) t2).
Proof.
  split; [exact findOrDownload_hit|].
  intros w c s p s1 t1 Hmode Hfinds Hrun.
  destruct (findOrDownload_second_call w c s s1 p t1 Hmode Hfinds Hrun) as [Hc Hp].
  eexists. split; [by apply findOrDownload_hit|].
  split; [reflexivity|]. by repeat constructor.
Qed.

Lemma finds_registered_sample : finds_registered world_cached cfg_archive.
Proof.
  intros m p Hm. unfold identity in Hm. cbn in Hm.
  cbn. unfold tool_cache_find.
  change (explicit_version "1.2.0") with true.
  rewrite !bool_decide_eq_false_2 by discriminate. cbn. by rewrite Hm.
Defined.

Lemma resolve_hits_what_find_finds_witness :
  ∃ t2,
    MainTs.findOrDownload world_cached cfg_archive
      (MainTs.findOrDownload world_cached cfg_archive state0).1.2
    = (Returned "/opt/hostedtoolcache/foo/1.2.0/x64",
       (MainTs.findOrDownload world_cached cfg_archive state0).1.2, t2) ∧
    t2 = [CallFind "foo" "1.2.0" "x64" (Returned "/opt/hostedtoolcache/foo/1.2.0/x64")] ∧
    Forall (λ ev, is_network ev = false) t2.
Proof.
  destruct resolve_hits_what_find_finds as [_ Hsecond].
  refine (Hsecond world_cached cfg_archive state0 _ _ _ eq_refl finds_registered_sample
            (returned_run (MainTs.findOrDownload world_cached cfg_archive) state0 _ _)).
  vm_compute. reflexivity.
Defined.

(** ** Temporaries *)

Lemma removed_gone (dir q : string) (X : gset string) :
  inside dir q = true → q ∉ filter (λ q, inside dir q = false) X.
Proof. intros Hin [Hout _]%elem_of_filter. congruence. Qed.

Lemma filter_keeps_out (P : string → Prop) `{!∀ q, Decision (P q)}
    (q : string) (X : gset string) :
  q ∉ X → q ∉ filter P X.
Proof. intros Hq [_ HX]%elem_of_filter. done. Qed.

Ltac present :=
  repeat first
    [ assumption
    | by (apply elem_of_union_l, elem_of_singleton)
    | apply elem_of_union_r ].

Ltac gone :=
  repeat first
    [ apply removed_gone;
      first [ apply inside_refl | apply inside_join; apply path_join_nonempty ]
    | apply filter_keeps_out ].

Lemma download_returned_clean (w : World) (c : ReleaseConfig) (s s' : State)
    (p : string) (t : list Event) :
  MainTs.download w c s = (Returned p, s', t) →
  ∀ q, q ∈ temporaries (inContainer w) t → q ∉ fs s'.
Proof.
  unfold inContainer, temporaries. open_config c.
  exec; intros Hrun; try discriminate Hrun; injection Hrun as <- <- <-;
    cbn; apply Forall_forall; each_call; gone.
Qed.

Lemma download_threw_untidy (w : World) (c : ReleaseConfig) (s s' : State)
    (e : Thrown) (t : list Event) :
  MainTs.download w c s = (Threw e, s', t) →
  (∀ ev, last t = Some ev → is_rmSync ev = false) →
  Forall (λ ev, is_rmSync ev = false) t ∧
  fs s ⊆ fs s' ∧
  ∀ q, q ∈ temporaries (inContainer w) t → q ∈ fs s'.
Proof.
  unfold inContainer, temporaries. open_config c.
  exec; intros Hrun; try discriminate Hrun; injection Hrun as <- <- <-;
    intros Hlast; try (specialize (Hlast _ eq_refl); discriminate Hlast);
    (split; [each_call; reflexivity|]); cbn;
    (split; [intros q Hq; present | apply Forall_forall; each_call; present]).
Qed.

(** C1 (as the document states it, refuted).  A corrupt archive: the
    download succeeds, the extractor throws, and [download] throws in turn
    while the temporary download file is still on disk. *)
Lemma cleanup_on_failure_counterexample :
  (MainTs.download world_corrupt cfg_archive state0).1.1
  = Threw (ErrorObject "corrupt archive") ∧
  "/tmp/dl1" ∈ temporaries (inContainer world_corrupt)
                 (MainTs.download world_corrupt cfg_archive state0).2 ∧
  "/tmp/dl1" ∈ fs (MainTs.download world_corrupt cfg_archive state0).1.2.
Proof.
  split; [vm_compute; reflexivity|].
  split; apply (bool_decide_unpack _); vm_compute; exact I.
Qed.

(** C1 (amended).  [download] removes its temporaries on the paths that
    return only: when it returns, none of the temporaries it created exists
    any more; when it throws and the call that threw is not itself a
    removal, it has attempted no removal at all, everything that existed
    before still exists, and so does every temporary it created. *)
Theorem cleanup_only_on_return (w : World) (c : ReleaseConfig) (s s' : State)
    (r : Result string) (t : list Event) :
  MainTs.download w c s = (r, s', t) →
  match r with
  | Returned _ => ∀ q, q ∈ temporaries (inContainer w) t → q ∉ fs s'
  | Threw _ =>
      (∀ ev, last t = Some ev → is_rmSync ev = false) →
      Forall (λ ev, is_rmSync ev = false) t ∧
      fs s ⊆ fs s' ∧
      ∀ q, q ∈ temporaries (inContainer w) t → q ∈ fs s'
  end.
Proof.
  intros Hrun. destruct r as [p|e].
  - by apply (download_returned_clean w c s s' p t).
  - by apply (download_threw_untidy w c s s' e t).
Qed.

Lemma cleanup_only_on_return_witness :
  "/tmp/dl1" ∉ fs (MainTs.download world_cached cfg_archive state0).1.2 ∧
  "/home/runner/tmp/r2" ∉ fs (MainTs.download world_cached cfg_archive state0).1.2.
Proof.
  assert (Hclean :
    ∀ q, q ∈ temporaries (inContainer world_cached)
               (MainTs.download world_cached cfg_archive state0).2 →
         q ∉ fs (MainTs.download world_cached cfg_archive state0).1.2).
  { refine (cleanup_only_on_return world_cached cfg_archive state0 _ (Returned _) _
              (returned_run (MainTs.download world_cached cfg_archive) state0 _ _)).
    vm_compute. reflexivity. }
  split; apply Hclean; apply (bool_decide_unpack _); vm_compute; exact I.
Defined.

(** ** Errors *)

Ltac split_last :=
  first
    [ eexists [], _; split; reflexivity
    | eexists [_], _; split; reflexivity
    | eexists [_; _], _; split; reflexivity
    | eexists [_; _; _], _; split; reflexivity
    | eexists [_; _; _; _], _; split; reflexivity
    | eexists [_; _; _; _; _], _; split; reflexivity
    | eexists [_; _; _; _; _; _], _; split; reflexivity ].

Lemma download_threw_last_call (w : World) (c : ReleaseConfig) (s s' : State)
    (e : Thrown) (t : list Event) :
  MainTs.download w c s = (Threw e, s', t) →
  ∃ pre ev, t = pre ++ [ev] ∧ thrown_by ev = Some e.
Proof.
  open_config c.
  exec; intros Hrun; try discriminate Hrun; injection Hrun as <- <- <-; split_last.
Qed.

Lemma findOrDownload_threw_last_call (w : World) (c : ReleaseConfig) (s s' : State)
    (e : Thrown) (t : list Event) :
  MainTs.findOrDownload w c s = (Threw e, s', t) →
  ∃ pre ev, t = pre ++ [ev] ∧ thrown_by ev = Some e.
Proof.
  intros Hrun.
  destruct (find_result w (name (tool c)) (version (tool c)) (arch (tool c)) (cache s))
    as [r|e0] eqn:Hfind.
  - destruct (truthy_string r) eqn:Hfound.
    + unfold truthy_string in Hfound. apply bool_decide_eq_true in Hfound.
      rewrite (findOrDownload_hit w c s r Hfind Hfound) in Hrun. discriminate Hrun.
    + rewrite (findOrDownload_miss w c s r Hfind Hfound) in Hrun.
      injection Hrun as Hr Hs Ht.
      apply threw_run in Hr.
      destruct (download_threw_last_call w c s _ e _ Hr) as (pre & ev & Hpre & Hev).
      exists (CallFind (name (tool c)) (version (tool c)) (arch (tool c)) (Returned r)
                :: pre), ev.
      split; [|done]. rewrite <- Ht, Hpre. reflexivity.
  - rewrite (findOrDownload_find_threw w c s e0 Hfind) in Hrun.
    injection Hrun as <- <- <-. by eexists [], _.
Qed.

Lemma run_reports (w : World) (c : ReleaseConfig) (s s' : State)
    (e : Thrown) (t : list Event) :
  MainTs.mkReleaseConfig w (platform w) (os_arch w) = Returned c →
  MainTs.findOrDownload w c s = (Threw e, s', t) →
  MainTs.run w s = (Returned (), s', t ++ [CallSetFailed e]).
Proof.
  intros Hc Hrun.
  unfold MainTs.run, try_catch, setFailed, mbind, M_bind.
  rewrite Hc, Hrun. reflexivity.
Qed.

(** C7 (as the document states it, refuted).  The extractor's exception
    leaves [download] as it was thrown, and [run] hands that very value to
    [core.setFailed]: it carries no kind, no step, and does not name the tool
    being acquired. *)
Lemma error_context_counterexample :
  (MainTs.download world_corrupt cfg_archive state0).1.1
  = Threw (ErrorObject "corrupt archive") ∧
  ¬ names_identity (ErrorObject "corrupt archive") cfg_archive ∧
  (MainTs.run world_corrupt state0).2
  = [CallFind "foo" "1.2.0" "x64" (Returned EmptyString);
     CallDownloadTool "https://example.com/foo-1.2.0.tar.gz" None None None
       (Returned "/tmp/dl1");
     CallExtract extractTar "/tmp/dl1" "/home/runner/tmp/r2"
       (Threw (ErrorObject "corrupt archive"));
     CallSetFailed (ErrorObject "corrupt archive")].
Proof.
  split; [vm_compute; reflexivity|].
  split; [|vm_compute; reflexivity].
  unfold names_identity. vm_compute. discriminate.
Qed.

(** C7 (amended).  Whatever makes [download] throw is the exception of the
    last call it made to a collaborator, unchanged: it is neither classified
    nor wrapped.  The same holds of [findOrDownload], and [run] passes the
    exception of [findOrDownload] to [core.setFailed] as it is. *)
Theorem errors_propagate_unchanged :
  (∀ w c s s' e t, MainTs.download w c s = (Threw e, s', t) →
     ∃ pre ev, t = pre ++ [ev] ∧ thrown_by ev = Some e) ∧
  (∀ w c s s' e t, MainTs.findOrDownload w c s = (Threw e, s', t) →
     ∃ pre ev, t = pre ++ [ev] ∧ thrown_by ev = Some e) ∧
  (∀ w c s s' e t,
     MainTs.mkReleaseConfig w (platform w) (os_arch w) = Returned c →
     MainTs.findOrDownload w c s = (Threw e, s', t) →
     MainTs.run w s = (Returned (), s', t ++ [CallSetFailed e])).
Proof.
  split; [exact download_threw_last_call|].
  split; [exact findOrDownload_threw_last_call | exact run_reports].
Qed.

Lemma errors_propagate_unchanged_witness :
  (∃ pre ev, (MainTs.download world_corrupt cfg_archive state0).2 = pre ++ [ev] ∧
             thrown_by ev = Some (ErrorObject "corrupt archive")) ∧
  MainTs.run world_corrupt state0
  = (Returned (), (MainTs.findOrDownload world_corrupt cfg_archive state0).1.2,
     (MainTs.findOrDownload world_corrupt cfg_archive state0).2
       ++ [CallSetFailed (ErrorObject "corrupt archive")]).
Proof.
  destruct errors_propagate_unchanged as (Hdownload & _ & Hrun). split.
  - refine (Hdownload world_corrupt cfg_archive state0 _ _ _
              (threw_run (MainTs.download world_corrupt cfg_archive) state0 _ _)).
    vm_compute. reflexivity.
  - refine (Hrun world_corrupt cfg_archive state0 _ _ _ _
              (threw_run (MainTs.findOrDownload world_corrupt cfg_archive) state0 _ _)).
    + vm_compute. reflexivity.
    + vm_compute. reflexivity.
Defined.

(** ** The raw binary: destination file and destination directory *)

(** C5 (the code of [src/main.ts] departs from it).  In a container
    [download] hands the directory [~/.local/bin] itself to
    [tc.downloadTool] and to [fs.chmodSync], and then returns
    [~/.local/bin/foo], a path it has written nothing to: the sample run is
    not a raw-binary install into [~/.local/bin], and the path it returns
    does not exist. *)
Theorem raw_fixed_install_targets_directory :
  (MainTs.download world_container cfg_raw state0).1.1
  = Returned "/home/runner/.local/bin/foo" ∧
  (MainTs.download world_container cfg_raw state0).2
  = [CallMkdirSync "/home/runner/.local/bin" (Returned ());
     CallDownloadTool "https://example.com/foo" (Some "/home/runner/.local/bin")
       None None (Returned "/home/runner/.local/bin");
     CallChmodSync "/home/runner/.local/bin" "755" (Returned ())] ∧
  ¬ Forall (raw_fixed_call (fixed_directory world_container) "foo")
           (MainTs.download world_container cfg_raw state0).2 ∧
  "/home/runner/.local/bin/foo" ∉ fs (MainTs.download world_container cfg_raw state0).1.2.
Proof.
  split; [vm_compute; reflexivity|].
  assert (Ht : (MainTs.download world_container cfg_raw state0).2
               = [CallMkdirSync "/home/runner/.local/bin" (Returned ());
                  CallDownloadTool "https://example.com/foo"
                    (Some "/home/runner/.local/bin") None None
                    (Returned "/home/runner/.local/bin");
                  CallChmodSync "/home/runner/.local/bin" "755" (Returned ())])
    by (vm_compute; reflexivity).
  split; [exact Ht|]. split.
  - rewrite Ht. intros Hall.
    apply Forall_cons_1 in Hall as [_ Hall]. apply Forall_cons_1 in Hall as [Hdl _].
    cbn in Hdl. vm_compute in Hdl. discriminate Hdl.
  - apply (bool_decide_unpack _). vm_compute. exact I.
Qed.

(** The same departure on every run: in a container, without extractor,
    [src/main.ts] downloads onto the fixed directory and returns the path of
    a file below it. *)
Lemma main_raw_fixed_targets_directory (w : World) (c : ReleaseConfig) (s : State) :
  inContainer w = true → extract (archive c) = None →
  Forall (λ ev, ∀ d, installed_at ev = Some d → d = fixed_directory w)
         (MainTs.download w c s).2 ∧
  ∀ p, (MainTs.download w c s).1.1 = Returned p →
       p = path_join [fixed_directory w; name (tool c)].
Proof.
  unfold inContainer, fixed_directory. intros Hmode Hx. open_config c. subst.
  exec_in Hmode;
    (split; [each_call; intros d Hd; cbn in Hd; congruence
            | intros p Hp; cbn in Hp; congruence]).
Qed.

(** X20 (C5 on the revision with [destDir]).  The binary goes to
    [~/.local/bin/<name>], that file is made executable, nothing is
    registered, and that same path is returned. *)
Lemma destdir_raw_fixed_install (w : World) (c : ReleaseConfig) (s : State) :
  inContainer w = true → extract (archive c) = None →
  Forall (raw_fixed_call (fixed_directory w) (name (tool c)))
         (DestDirRev.download w c s).2 ∧
  cache (DestDirRev.download w c s).1.2 = cache s ∧
  ∀ p, (DestDirRev.download w c s).1.1 = Returned p →
       p = path_join [fixed_directory w; name (tool c)] ∧
       ∃ pre u auth headers,
         (DestDirRev.download w c s).2
         = pre ++ [CallDownloadTool u (Some p) auth headers (Returned p);
                   CallChmodSync p "755" (Returned ())].
Proof.
  unfold inContainer, fixed_directory. intros Hmode Hx. open_config c. subst.
  exec_in Hmode;
    (split; [each_call; cbn; by eauto|]); (split; [reflexivity|]);
    intros p Hp; cbn in Hp; try discriminate Hp; injection Hp as <-;
    (split; [reflexivity|]);
    first [ by eexists [], _, _, _
          | by eexists [_], _, _, _
          | by eexists [_; _], _, _, _ ].
Qed.

(** X21 (C5 on the revision with [targetDir]).  The same, into the
    directory the input names. *)
Lemma targetdir_raw_fixed_install (w : World) (c : TargetDirRev.ReleaseConfig)
    (s : State) :
  TargetDirRev.targetDir (TargetDirRev.tool c) ≠ None →
  extract (TargetDirRev.archive c) = None →
  Forall (raw_fixed_call (TargetDirRev.fixed_directory w c)
                         (TargetDirRev.name (TargetDirRev.tool c)))
         (TargetDirRev.download w c s).2 ∧
  cache (TargetDirRev.download w c s).1.2 = cache s ∧
  ∀ p, (TargetDirRev.download w c s).1.1 = Returned p →
       p = path_join [TargetDirRev.fixed_directory w c;
                      TargetDirRev.name (TargetDirRev.tool c)] ∧
       ∃ pre u auth headers,
         (TargetDirRev.download w c s).2
         = pre ++ [CallDownloadTool u (Some p) auth headers (Returned p);
                   CallChmodSync p "755" (Returned ())].
Proof.
  unfold TargetDirRev.fixed_directory. intros Hdir Hx.
  destruct c as [[n v a [dir|]] [u sd x] tok]; cbn in *; [|done]. subst.
  exec;
    (split; [each_call; cbn; by eauto|]); (split; [reflexivity|]);
    intros p Hp; cbn in Hp; try discriminate Hp; injection Hp as <-;
    (split; [reflexivity|]);
    first [ by eexists [], _, _, _
          | by eexists [_], _, _, _
          | by eexists [_; _], _, _, _ ].
Qed.

(** C6 (the code of [src/main.ts] departs from it).  Outside a container
    [download] registers the downloaded file, [~/tmp/r0/foo], as the source
    directory of the cache entry, not the temporary destination root
    [~/tmp/r0] that it removes afterwards. *)
Theorem raw_cached_install_registers_file :
  (MainTs.download world_cached cfg_raw state0).2
  = [CallDownloadTool "https://example.com/foo" (Some "/home/runner/tmp/r0/foo")
       None None (Returned "/home/runner/tmp/r0/foo");
     CallChmodSync "/home/runner/tmp/r0/foo" "755" (Returned ());
     CallCacheDir "/home/runner/tmp/r0/foo" "foo" "1.2.0" "x64"
       (Returned "/opt/hostedtoolcache/foo/1.2.0/x64");
     CallRmSync "/home/runner/tmp/r0" (Returned ())] ∧
  omap placement_source (MainTs.download world_cached cfg_raw state0).2
  ≠ ["/home/runner/tmp/r0"].
Proof.
  assert (Ht : (MainTs.download world_cached cfg_raw state0).2
               = [CallDownloadTool "https://example.com/foo"
                    (Some "/home/runner/tmp/r0/foo")
                    None None (Returned "/home/runner/tmp/r0/foo");
                  CallChmodSync "/home/runner/tmp/r0/foo" "755" (Returned ());
                  CallCacheDir "/home/runner/tmp/r0/foo" "foo" "1.2.0" "x64"
                    (Returned "/opt/hostedtoolcache/foo/1.2.0/x64");
                  CallRmSync "/home/runner/tmp/r0" (Returned ())])
    by (vm_compute; reflexivity).
  split; [exact Ht|]. rewrite Ht. cbn. discriminate.
Qed.

(** The same departure on every run: outside a container, without
    extractor, whatever [src/main.ts] registers in the cache is the file it
    downloaded. *)
Lemma main_raw_cached_registers_file (w : World) (c : ReleaseConfig) (s : State) :
  inContainer w = false → extract (archive c) = None →
  Forall (λ ev, ∀ src, placement_source ev = Some src →
            src = path_join [path_join [homedir w; "tmp"; random_name w (draws s)];
                             name (tool c)])
         (MainTs.download w c s).2.
Proof.
  unfold inContainer. intros Hmode Hx. open_config c. subst.
  exec_in Hmode; each_call; intros src Hsrc; cbn in Hsrc; congruence.
Qed.

(** X22 (C6 on the revision with [destDir]).  The binary goes to [root/<name>]
    below a fresh temporary root, is made executable, the root is registered
    under the identity, the root is removed, and the registered directory is
    returned. *)
Lemma destdir_raw_cached_install (w : World) (c : ReleaseConfig) (s s' : State)
    (p : string) (t : list Event) :
  inContainer w = false → extract (archive c) = None →
  DestDirRev.download w c s = (Returned p, s', t) →
  (let root := path_join [homedir w; "tmp"; random_name w (draws s)] in
   let dest := path_join [root; name (tool c)] in
   (∃ pre u auth headers,
      t = pre ++ [CallDownloadTool u (Some dest) auth headers (Returned dest);
                  CallChmodSync dest "755" (Returned ());
                  CallCacheDir root (name (tool c)) (version (tool c)) (arch (tool c))
                    (Returned p);
                  CallRmSync root (Returned ())]) ∧
   p = tool_path w (identity c) ∧
   cache s' !! identity c = Some p ∧
   root ∉ fs s' ∧ dest ∉ fs s').
Proof.
  unfold inContainer, identity. intros Hmode Hx. open_config c. subst.
  exec_in Hmode; intros Hrun; try discriminate Hrun; injection Hrun as <- <- <-;
    (split; [first [ by eexists [], _, _, _ | by eexists [_], _, _, _ ]|]);
    (split; [reflexivity|]); (split; [apply lookup_insert_eq|]); split; gone.
Qed.

(** X23 (C6 on the revision with [targetDir]).  The same, when the tool
    has no target directory. *)
Lemma targetdir_raw_cached_install (w : World) (c : TargetDirRev.ReleaseConfig)
    (s s' : State) (p : string) (t : list Event) :
  TargetDirRev.targetDir (TargetDirRev.tool c) = None →
  extract (TargetDirRev.archive c) = None →
  TargetDirRev.download w c s = (Returned p, s', t) →
  (let n := TargetDirRev.name (TargetDirRev.tool c) in
   let v := TargetDirRev.version (TargetDirRev.tool c) in
   let a := TargetDirRev.arch (TargetDirRev.tool c) in
   let root := path_join [homedir w; "tmp"; random_name w (draws s)] in
   let dest := path_join [root; n] in
   (∃ pre u auth headers,
      t = pre ++ [CallDownloadTool u (Some dest) auth headers (Returned dest);
                  CallChmodSync dest "755" (Returned ());
                  CallCacheDir root n v a (Returned p);
                  CallRmSync root (Returned ())]) ∧
   p = tool_path w (n, v, a) ∧
   cache s' !! (n, v, a) = Some p ∧
   root ∉ fs s' ∧ dest ∉ fs s').
Proof.
  intros Hdir Hx.
  destruct c as [[n v a dir] [u sd x] tok]; cbn in *. subst.
  exec; intros Hrun; try discriminate Hrun; injection Hrun as <- <- <-;
    (split; [first [ by eexists [], _, _, _ | by eexists [_], _, _, _ ]|]);
    (split; [reflexivity|]); (split; [apply lookup_insert_eq|]); split; gone.
Qed.

(** * Further properties of the code *)

(** ** [getExtract] and [mkReleaseConfig] *)

(** X1.  [getExtract] yields an operation exactly on the four extensions
    of [PkgExtension], and on them it is one-to-one: two extensions with the
    same operation are the same extension. *)
Theorem getExtract_exact :
  (∀ ext, is_Some (getExtract ext) ↔ ext ∈ PkgExtension) ∧
  (∀ e1 e2 x, getExtract e1 = Some x → getExtract e2 = Some x → e1 = e2).
Proof.
  split.
  - intros ext. split; [|apply getExtract_known].
    intros Hsome. unfold getExtract in Hsome. unfold PkgExtension.
    repeat case_decide; subst;
      first [ by destruct Hsome
            | repeat first [apply list_elem_of_here | apply list_elem_of_further] ].
  - intros e1 e2 x Hone Htwo. unfold getExtract in Hone, Htwo.
    repeat case_decide; congruence.
Qed.

Lemma getExtract_exact_witness :
  (is_Some (getExtract "zip") ↔ "zip" ∈ PkgExtension) ∧
  ("7z" = "7z").
Proof.
  destruct getExtract_exact as [Hiff Hinj]. split.
  - apply Hiff.
  - apply (Hinj "7z" "7z" extract7z); reflexivity.
Defined.

(** X2.  An extension outside [PkgExtension] is not rejected: without
    [noExtract], [mkReleaseConfig] still returns a configuration, whose
    extractor is missing, and [download] then treats the URL as a raw
    binary. *)
Theorem unknown_extension_downloads_raw (w : World) (p a : string) (i : Inputs) :
  getInputs w p a = Returned i →
  in_ext i ∉ PkgExtension →
  ∃ c, MainTs.mkReleaseConfig w p a = Returned c ∧
       extract (archive c) = None ∧
       ∀ s, Forall raw_binary_call (MainTs.download w c s).2.
Proof.
  intros Hi Hext.
  assert (Hnone : getExtract (in_ext i) = None).
  { unfold PkgExtension in Hext. rewrite !elem_of_cons, elem_of_nil in Hext.
    unfold getExtract. repeat case_decide; subst; try reflexivity; exfalso; tauto. }
  unfold MainTs.mkReleaseConfig. rewrite Hi. cbn -[getExtract]. rewrite Hnone.
  eexists. split; [reflexivity|]. cbn.
  split; [by destruct (in_noExtract i)|].
  intros s. apply download_raw_binary_calls. cbn. by destruct (in_noExtract i).
Qed.

Lemma unknown_extension_downloads_raw_witness :
  ∃ c, MainTs.mkReleaseConfig world_rar "linux" "x64" = Returned c ∧
       extract (archive c) = None ∧
       ∀ s, Forall raw_binary_call (MainTs.download world_rar c s).2.
Proof.
  apply (unknown_extension_downloads_raw world_rar "linux" "x64" rar_inputs).
  - reflexivity.
  - apply (bool_decide_unpack _). vm_compute. exact I.
Defined.

(** X3.  The identity [run] looks up in the cache is made of the inputs'
    name and version and of the architecture of the runner
    ([process.arch]), whatever the [arch] input says: when the inputs can be
    read, the first call of [run] is that lookup. *)
Theorem run_looks_up_runner_arch (w : World) (i : Inputs) (s : State) :
  getInputs w (platform w) (os_arch w) = Returned i →
  ∃ r rest,
    (MainTs.run w s).2 = CallFind (in_name i) (in_version i) (os_arch w) r :: rest.
Proof.
  intros Hi.
  unfold MainTs.run, try_catch, mbind, M_bind, MainTs.mkReleaseConfig.
  rewrite Hi. cbv zeta.
  set (c := mkRelease _ _ _).
  pose proof (findOrDownload_cases w c s) as Hcases. cbn in Hcases.
  destruct (find_result w (in_name i) (in_version i) (os_arch w) (cache s)) as [r|e].
  - destruct (truthy_string r).
    + rewrite Hcases. cbn. eauto.
    + rewrite Hcases. destruct (MainTs.download w c s) as [[[dir|e] s'] t]; cbn; eauto.
  - rewrite Hcases. cbn. eauto.
Qed.

Lemma run_looks_up_runner_arch_witness :
  ∃ r rest,
    (MainTs.run world_rar state0).2 = CallFind "foo" "1.2.0" "x64" r :: rest.
Proof.
  apply (run_looks_up_runner_arch world_rar rar_inputs state0). reflexivity.
Defined.

(** X4.  An empty (or absent) [subdir] input gives a configuration without
    subdirectory, so that what an extraction run places is the extraction
    root itself; a non-empty one is taken through [interpolate]. *)
Theorem mkReleaseConfig_subdir (w : World) (p a : string) (i : Inputs) :
  getInputs w p a = Returned i →
  ∃ c, MainTs.mkReleaseConfig w p a = Returned c ∧
       (truthy (in_subdir i) = false →
        subdir (archive c) = None ∧
        ∀ s x, extract (archive c) = Some x →
               Forall (placed_from (MainTs.download w c s).2 x None)
                      (MainTs.download w c s).2) ∧
       (∀ d, in_subdir i = Some d → d ≠ EmptyString →
          subdir (archive c)
          = Some (interpolate w d
                    (mkVars (in_name i) (in_version i) (in_os i) (in_arch i) (in_ext i)))).
Proof.
  intros Hi. unfold MainTs.mkReleaseConfig. rewrite Hi.
  eexists. split; [reflexivity|]. cbn -[getExtract]. split.
  - intros Hfalsy. rewrite Hfalsy. split; [reflexivity|].
    intros s x Hx.
    match goal with
    | |- Forall _ (MainTs.download w ?c s).2 =>
        exact (download_placed_from w c s x Hx)
    end.
  - intros d -> Hd. cbn. by rewrite bool_decide_eq_true_2.
Qed.

Lemma mkReleaseConfig_subdir_witness :
  ∃ c, MainTs.mkReleaseConfig world_rar "linux" "x64" = Returned c ∧
       subdir (archive c) = None.
Proof.
  destruct (mkReleaseConfig_subdir world_rar "linux" "x64" rar_inputs eq_refl)
    as (c & Hc & Hempty & _).
  exists c. split; [exact Hc|]. apply Hempty. reflexivity.
Defined.

(** ** [download]: the credential *)

(** X5.  With a credential, the first call of [download] hands
    [archive.url] and the token to the private-asset resolver; when the
    resolver returns, it is not asked again and every download takes the URL,
    token and headers it returned. *)
Theorem credential_resolves_first (w : World) (c : ReleaseConfig) (s : State) :
  truthy (githubToken c) = true →
  ∃ token r rest,
    githubToken c = Some token ∧
    (MainTs.download w c s).2
    = CallFindReleaseAsset (url (archive c)) token r :: rest ∧
    match r with
    | Returned asset => Forall (resolved_call asset) rest
    | Threw _ => rest = []
    end.
Proof.
  intros Htok. open_config c. destruct tok as [token|]; [|discriminate Htok].
  cbn in Htok. exists token.
  exec; try discriminate Htok;
    eexists _, _; (split; [reflexivity|]); (split; [reflexivity|]);
    first [ reflexivity | each_call; cbn; by eauto ].
Qed.

Lemma credential_resolves_first_witness :
  ∃ token r rest,
    githubToken cfg_private = Some token ∧
    (MainTs.download world_cached cfg_private state0).2
    = CallFindReleaseAsset (url (archive cfg_private)) token r :: rest ∧
    match r with
    | Returned asset => Forall (resolved_call asset) rest
    | Threw _ => rest = []
    end.
Proof. apply credential_resolves_first. reflexivity. Defined.

(** X6.  When the resolver throws, [download] throws the same exception
    having made no other call and having changed nothing: no directory
    made, no random name drawn, no file written. *)
Theorem resolver_failure_aborts (w : World) (c : ReleaseConfig) (s : State)
    (token : string) (e : Thrown) :
  githubToken c = Some token → token ≠ EmptyString →
  findReleaseAsset_result w (url (archive c)) token s = Threw e →
  MainTs.download w c s
  = (Threw e, s, [CallFindReleaseAsset (url (archive c)) token (Threw e)]).
Proof.
  intros Htok Hne Hres. open_config c. subst tok.
  unfold_calls. cbn. rewrite (bool_decide_eq_true_2 _ Hne). cbn.
  rewrite Hres. reflexivity.
Qed.

Lemma resolver_failure_aborts_witness :
  MainTs.download world_no_asset cfg_private state0
  = (Threw (ErrorObject "no matching asset"), state0,
     [CallFindReleaseAsset (url (archive cfg_private)) "ghp_0123"
        (Threw (ErrorObject "no matching asset"))]).
Proof.
  apply resolver_failure_aborts; [reflexivity | discriminate | reflexivity].
Defined.

(** X7.  An empty token counts as no credential: the resolver is not
    called and the download takes [archive.url] with neither token nor
    headers. *)
Theorem empty_token_is_no_credential (w : World) (c : ReleaseConfig) (s : State) :
  githubToken c = Some EmptyString →
  Forall (public_call c) (MainTs.download w c s).2.
Proof.
  intros Htok. open_config c. subst.
  exec;
    try (match goal with
         | H : bool_decide (EmptyString ≠ EmptyString) = true |- _ =>
             by apply bool_decide_eq_true in H
         end);
    each_call; cbn; eauto.
Qed.

Lemma empty_token_is_no_credential_witness :
  Forall (public_call cfg_empty_token)
         (MainTs.download world_cached cfg_empty_token state0).2.
Proof. apply empty_token_is_no_credential. reflexivity. Defined.

(** ** [download]: the shape of every run *)

(** X8.  [download] stops at the first call that throws: in every trace
    only the last call can have thrown, and when [download] returns no call
    has. *)
Theorem download_stops_at_first_throw (w : World) (c : ReleaseConfig) (s : State) :
  Forall (λ ev, thrown_by ev = None) (removelast (MainTs.download w c s).2) ∧
  (∀ p, (MainTs.download w c s).1.1 = Returned p →
        Forall (λ ev, thrown_by ev = None) (MainTs.download w c s).2).
Proof.
  open_config c.
  exec; (split; [each_call; reflexivity|]);
    intros p Hp; cbn in Hp; try discriminate Hp; each_call; reflexivity.
Qed.

(** X9.  Whatever happens, one [download] asks for at most one download,
    runs at most one extraction and makes at most one placement, and its
    calls come in the order of the pipeline: asset resolution, destination
    directory, download, mode bits or extraction, placement, removals. *)
Theorem download_is_one_pipeline (w : World) (c : ReleaseConfig) (s : State) :
  (calls is_downloadTool (MainTs.download w c s).2 ≤ 1)%nat ∧
  (calls is_extract (MainTs.download w c s).2 ≤ 1)%nat ∧
  (calls is_placement (MainTs.download w c s).2 ≤ 1)%nat ∧
  nondecreasing (stage <$> (MainTs.download w c s).2) = true.
Proof.
  open_config c. unfold calls.
  exec; cbn; (split; [lia|]); (split; [lia|]); (split; [lia | reflexivity]).
Qed.

Lemma download_cache_cases (w : World) (c : ReleaseConfig) (s : State) :
  (calls has_registered (MainTs.download w c s).2 = 0 ∧
   cache (MainTs.download w c s).1.2 = cache s) ∨
  (calls has_registered (MainTs.download w c s).2 = 1 ∧
   cache (MainTs.download w c s).1.2
   = <[identity c := tool_path w (identity c)]> (cache s)).
Proof.
  open_config c. unfold calls, identity.
  exec; cbn; first [ left; split; reflexivity | right; split; reflexivity ].
Qed.

(** X10.  [download] changes the tool cache only by a registration that
    returned, and then only at the identity it was given: either no
    registration returned and the cache is as before, or exactly one did and
    the cache is the old one with the identity bound to its cache
    directory. *)
Theorem download_cache_frame (w : World) (c : ReleaseConfig) (s : State) :
  (calls has_registered (MainTs.download w c s).2 = 0 ∧
   cache (MainTs.download w c s).1.2 = cache s) ∨
  (calls has_registered (MainTs.download w c s).2 = 1 ∧
   cache (MainTs.download w c s).1.2
   = <[identity c := tool_path w (identity c)]> (cache s)).
Proof. apply download_cache_cases. Qed.

Lemma download_stops_at_first_throw_witness :
  Forall (λ ev, thrown_by ev = None)
         (removelast (MainTs.download world_corrupt cfg_archive state0).2) ∧
  Forall (λ ev, thrown_by ev = None) (MainTs.download world_cached cfg_archive state0).2.
Proof.
  split.
  - apply (download_stops_at_first_throw world_corrupt cfg_archive state0).
  - apply (proj2 (download_stops_at_first_throw world_cached cfg_archive state0)
             "/opt/hostedtoolcache/foo/1.2.0/x64").
    vm_compute. reflexivity.
Defined.

(** ** [download]: the disk *)

Ltac contradict_presence Hb :=
  match goal with
  | H : negb (bool_decide (_ ∈ _)) = _ |- _ => rewrite Hb in H; discriminate H
  end.

(** X13.  [download] makes a directory only in a container and only when
    [~/.local/bin] is missing: outside a container, or with the directory
    there, no [fs.mkdirSync] call is made; and a run in a container that
    returns although the directory was missing has made exactly that
    directory. *)
Theorem mkdir_only_when_missing (w : World) (c : ReleaseConfig) (s : State) :
  (inContainer w = false ∨ fixed_directory w ∈ fs s →
   calls is_mkdirSync (MainTs.download w c s).2 = 0) ∧
  (inContainer w = true → fixed_directory w ∉ fs s →
   ∀ p, (MainTs.download w c s).1.1 = Returned p →
        CallMkdirSync (fixed_directory w) (Returned ()) ∈ (MainTs.download w c s).2).
Proof.
  unfold inContainer, fixed_directory, calls. split.
  - intros [Hmode | Hthere]; open_config c.
    + exec_in Hmode; reflexivity.
    + assert (Hb : bool_decide (path_join [homedir w; ".local"; "bin"] ∈ fs s) = true)
        by (by apply bool_decide_eq_true_2).
      exec; try contradict_presence Hb; reflexivity.
  - intros Hmode Hmissing. open_config c.
    assert (Hb : bool_decide (path_join [homedir w; ".local"; "bin"] ∈ fs s) = false)
      by (by apply bool_decide_eq_false_2).
    exec_in Hmode; try contradict_presence Hb; intros p Hp; cbn in Hp; try discriminate Hp;
      repeat first [apply list_elem_of_here | apply list_elem_of_further].
Qed.

Lemma mkdir_only_when_missing_witness :
  calls is_mkdirSync (MainTs.download world_container cfg_archive state_installed).2 = 0 ∧
  CallMkdirSync (fixed_directory world_container) (Returned ())
  ∈ (MainTs.download world_container cfg_archive state0).2.
Proof.
  destruct (mkdir_only_when_missing world_container cfg_archive state_installed)
    as [Hnone _].
  destruct (mkdir_only_when_missing world_container cfg_archive state0)
    as [_ Hmade].
  split.
  - apply Hnone. right. apply (bool_decide_unpack _). vm_compute. exact I.
  - apply (Hmade eq_refl) with (p := "/home/runner/.local/bin/foo").
    + apply (bool_decide_unpack _). vm_compute. exact I.
    + vm_compute. reflexivity.
Defined.

(** ** [findOrDownload] and [run] *)

(** X14.  In a container nothing is memoised: [findOrDownload] leaves the
    tool cache as it found it, so an identity that missed misses again, and
    the next call runs [download] again. *)
Theorem container_never_memoises (w w' : World) (c : ReleaseConfig) (s : State) :
  inContainer w = true →
  cache (MainTs.findOrDownload w c s).1.2 = cache s ∧
  (∀ r, find_result w' (name (tool c)) (version (tool c)) (arch (tool c)) (cache s)
        = Returned r →
        truthy_string r = false →
   (MainTs.findOrDownload w' c (MainTs.findOrDownload w c s).1.2).2
   = CallFind (name (tool c)) (version (tool c)) (arch (tool c)) (Returned r)
     :: (MainTs.download w' c (MainTs.findOrDownload w c s).1.2).2).
Proof.
  intros Hmode.
  assert (Hcache : cache (MainTs.findOrDownload w c s).1.2 = cache s).
  { pose proof (findOrDownload_cases w c s) as Hcases.
    destruct (find_result w (name (tool c)) (version (tool c)) (arch (tool c)) (cache s))
      as [r|e].
    - destruct (truthy_string r); rewrite Hcases; [reflexivity|]. cbn.
      apply (download_container_no_cache w c s Hmode).
    - by rewrite Hcases. }
  split; [exact Hcache|].
  intros r Hfind Hmiss. rewrite <- Hcache in Hfind.
  by rewrite (findOrDownload_miss w' c _ r Hfind Hmiss).
Qed.

Lemma container_never_memoises_witness :
  cache (MainTs.findOrDownload world_container cfg_archive state0).1.2 = cache state0 ∧
  (MainTs.findOrDownload world_container cfg_archive
     (MainTs.findOrDownload world_container cfg_archive state0).1.2).2
  = CallFind "foo" "1.2.0" "x64" (Returned EmptyString)
    :: (MainTs.download world_container cfg_archive
          (MainTs.findOrDownload world_container cfg_archive state0).1.2).2.
Proof.
  destruct (container_never_memoises world_container world_container cfg_archive state0
              eq_refl) as [Hcache Hagain].
  split; [exact Hcache|]. apply Hagain; reflexivity.
Defined.

Lemma download_never_reports (w : World) (c : ReleaseConfig) (s : State) :
  Forall (λ ev, is_report ev = false) (MainTs.download w c s).2.
Proof. open_config c. exec; each_call; reflexivity. Qed.

Lemma findOrDownload_never_reports (w : World) (c : ReleaseConfig) (s : State) :
  Forall (λ ev, is_report ev = false) (MainTs.findOrDownload w c s).2.
Proof.
  pose proof (findOrDownload_cases w c s) as Hcases.
  destruct (find_result w (name (tool c)) (version (tool c)) (arch (tool c)) (cache s))
    as [r|e].
  - destruct (truthy_string r); rewrite Hcases; cbn.
    + by repeat constructor.
    + constructor; [reflexivity | apply download_never_reports].
  - rewrite Hcases. by repeat constructor.
Qed.

(** X15.  [run] never throws, and it tells the runner exactly one thing,
    as its last call: [core.addPath] or [core.setFailed]. *)
Theorem run_reports_once (w : World) (s : State) :
  (MainTs.run w s).1.1 = Returned () ∧
  ∃ pre ev,
    (MainTs.run w s).2 = pre ++ [ev] ∧
    is_report ev = true ∧
    Forall (λ ev, is_report ev = false) pre.
Proof.
  unfold MainTs.run, try_catch, mbind, M_bind, addPath, setFailed.
  destruct (MainTs.mkReleaseConfig w (platform w) (os_arch w)) as [c|e].
  - pose proof (findOrDownload_never_reports w c s) as Hquiet.
    destruct (MainTs.findOrDownload w c s) as [[[dir|e] s'] t]; cbn in *;
      (split; [reflexivity|]); eexists t, _; rewrite ?app_nil_r; by eauto.
  - cbn. split; [reflexivity|]. by eexists [], _.
Qed.

(** X16.  What [run] reports: the directory [findOrDownload] returned goes
    to [core.addPath]; and when the inputs cannot be read, [run] makes no
    call but [core.setFailed], with the exception of [getInputs], and changes
    nothing. *)
Theorem run_outcomes :
  (∀ w c s s' dir t,
     MainTs.mkReleaseConfig w (platform w) (os_arch w) = Returned c →
     MainTs.findOrDownload w c s = (Returned dir, s', t) →
     MainTs.run w s = (Returned (), s', t ++ [CallAddPath dir])) ∧
  (∀ w s e,
     getInputs w (platform w) (os_arch w) = Threw e →
     MainTs.run w s = (Returned (), s, [CallSetFailed e])).
Proof.
  split.
  - intros w c s s' dir t Hc Hrun.
    unfold MainTs.run, try_catch, mbind, M_bind, addPath.
    rewrite Hc, Hrun. reflexivity.
  - intros w s e He.
    unfold MainTs.run, try_catch, mbind, M_bind, setFailed, MainTs.mkReleaseConfig.
    rewrite He. reflexivity.
Qed.

Lemma run_outcomes_witness :
  MainTs.run world_cached state0
  = (Returned (), (MainTs.findOrDownload world_cached cfg_archive state0).1.2,
     (MainTs.findOrDownload world_cached cfg_archive state0).2
       ++ [CallAddPath "/opt/hostedtoolcache/foo/1.2.0/x64"]) ∧
  MainTs.run world_bad_inputs state0
  = (Returned (), state0,
     [CallSetFailed (ErrorObject "Input required and not supplied: name")]).
Proof.
  destruct run_outcomes as [Hok Hbad]. split.
  - refine (Hok world_cached cfg_archive state0 _ _ _ _
              (returned_run (MainTs.findOrDownload world_cached cfg_archive) state0 _ _)).
    + vm_compute. reflexivity.
    + vm_compute. reflexivity.
  - apply Hbad. reflexivity.
Defined.

(** ** The revisions against one another *)

(** X17.  Giving the destination directory a variable of its own changed
    nothing for archives: on a configuration with an extractor the revision
    with [destDir] makes the same calls, leaves the same state and completes
    the same way as [src/main.ts]. *)
Theorem destdir_agrees_on_archives (w : World) (c : ReleaseConfig) (s : State)
    (x : Extract) :
  extract (archive c) = Some x →
  DestDirRev.download w c s = MainTs.download w c s.
Proof.
  intros Hx. open_config c. subst.
  exec; reflexivity.
Qed.

Lemma destdir_agrees_on_archives_witness :
  DestDirRev.download world_container cfg_archive state0
  = MainTs.download world_container cfg_archive state0.
Proof. apply (destdir_agrees_on_archives _ _ _ extractTar). reflexivity. Defined.

(** X18.  The revision with [targetDir] extends the one with [destDir]:
    without a target directory it behaves as [destDir] does outside a
    container, and given [~/.local/bin] as target directory it behaves as
    [destDir] does in a container. *)
Theorem targetdir_extends_destdir (w : World) (c : ReleaseConfig) (s : State) :
  (inContainer w = false →
   TargetDirRev.download w (with_targetDir c None) s = DestDirRev.download w c s) ∧
  (inContainer w = true →
   TargetDirRev.download w (with_targetDir c (Some (fixed_directory w))) s
   = DestDirRev.download w c s).
Proof.
  unfold inContainer, fixed_directory, with_targetDir. split; intros Hmode; open_config c.
  - exec_in Hmode; reflexivity.
  - assert (Hdir : bool_decide (path_join [homedir w; ".local"; "bin"] ≠ EmptyString) = true)
      by (apply bool_decide_eq_true_2, path_join_nonempty).
    unfold_calls. rewrite Hmode. cbn. rewrite Hdir. cbn.
    repeat (inner_case; cbn); reflexivity.
Qed.

Lemma targetdir_extends_destdir_witness :
  TargetDirRev.download world_cached (with_targetDir cfg_raw None) state0
  = DestDirRev.download world_cached cfg_raw state0 ∧
  TargetDirRev.download world_container
    (with_targetDir cfg_raw (Some (fixed_directory world_container))) state0
  = DestDirRev.download world_container cfg_raw state0.
Proof.
  split.
  - apply (targetdir_extends_destdir world_cached cfg_raw state0). reflexivity.
  - apply (targetdir_extends_destdir world_container cfg_raw state0). reflexivity.
Defined.

(** X19.  In the revision with [targetDir], any target directory, the
    empty string included, selects the fixed install: the cache is never
    written, and a run that returns returns [<directory>/<name>], where the
    directory is the target directory, or [~/local/bin] when it is the empty
    string. *)
Theorem targetdir_fixed_install (w : World) (c : TargetDirRev.ReleaseConfig)
    (s : State) (d : string) :
  TargetDirRev.targetDir (TargetDirRev.tool c) = Some d →
  calls is_cacheDir (TargetDirRev.download w c s).2 = 0 ∧
  cache (TargetDirRev.download w c s).1.2 = cache s ∧
  ∀ p, (TargetDirRev.download w c s).1.1 = Returned p →
       p = path_join [if bool_decide (d = EmptyString)
                      then path_join [homedir w; "local"; "bin"] else d;
                      TargetDirRev.name (TargetDirRev.tool c)].
Proof.
  intros Hd. destruct c as [[n v a dir] [u sd x] tok]; cbn in *. subst dir.
  unfold calls.
  destruct (decide (d = EmptyString)) as [->|Hne].
  - rewrite (bool_decide_eq_true_2 (EmptyString = EmptyString) eq_refl).
    exec;
      try (match goal with
           | H : bool_decide (EmptyString ≠ EmptyString) = true |- _ =>
               by apply bool_decide_eq_true in H
           end);
      (split; [reflexivity|]); (split; [reflexivity|]);
      intros p Hp; cbn in Hp; congruence.
  - rewrite (bool_decide_eq_false_2 _ Hne).
    assert (Hb : bool_decide (d ≠ EmptyString) = true) by (by apply bool_decide_eq_true_2).
    unfold_calls. cbn. rewrite Hb. cbn.
    repeat (inner_case; cbn);
      (split; [reflexivity|]); (split; [reflexivity|]);
      intros p Hp; cbn in Hp; congruence.
Qed.

Lemma targetdir_fixed_install_witness :
  calls is_cacheDir
    (TargetDirRev.download world_cached (with_targetDir cfg_archive (Some EmptyString))
       state0).2 = 0 ∧
  cache (TargetDirRev.download world_cached
           (with_targetDir cfg_archive (Some EmptyString)) state0).1.2
  = cache state0 ∧
  ∀ p, (TargetDirRev.download world_cached
          (with_targetDir cfg_archive (Some EmptyString)) state0).1.1 = Returned p →
       p = path_join [if bool_decide (EmptyString = EmptyString)
                      then path_join [homedir world_cached; "local"; "bin"]
                      else EmptyString;
                      TargetDirRev.name
                        (TargetDirRev.tool (with_targetDir cfg_archive (Some EmptyString)))].
Proof.
  apply (targetdir_fixed_install world_cached
           (with_targetDir cfg_archive (Some EmptyString)) state0 EmptyString).
  reflexivity.
Defined.

(** ** Witnesses for the raw-binary installs of the revisions *)

Lemma destdir_raw_fixed_install_witness :
  Forall (raw_fixed_call (fixed_directory world_container) (name (tool cfg_raw)))
         (DestDirRev.download world_container cfg_raw state0).2 ∧
  cache (DestDirRev.download world_container cfg_raw state0).1.2 = cache state0 ∧
  ∀ p, (DestDirRev.download world_container cfg_raw state0).1.1 = Returned p →
       p = path_join [fixed_directory world_container; name (tool cfg_raw)] ∧
       ∃ pre u auth headers,
         (DestDirRev.download world_container cfg_raw state0).2
         = pre ++ [CallDownloadTool u (Some p) auth headers (Returned p);
                   CallChmodSync p "755" (Returned ())].
Proof. apply destdir_raw_fixed_install; reflexivity. Defined.

Lemma targetdir_raw_fixed_install_witness :
  Forall (raw_fixed_call
            (TargetDirRev.fixed_directory world_cached
               (with_targetDir cfg_raw (Some "/opt/tools")))
            "foo")
         (TargetDirRev.download world_cached
            (with_targetDir cfg_raw (Some "/opt/tools")) state0).2 ∧
  cache (TargetDirRev.download world_cached
           (with_targetDir cfg_raw (Some "/opt/tools")) state0).1.2 = cache state0 ∧
  ∀ p, (TargetDirRev.download world_cached
          (with_targetDir cfg_raw (Some "/opt/tools")) state0).1.1 = Returned p →
       p = path_join [TargetDirRev.fixed_directory world_cached
                        (with_targetDir cfg_raw (Some "/opt/tools")); "foo"] ∧
       ∃ pre u auth headers,
         (TargetDirRev.download world_cached
            (with_targetDir cfg_raw (Some "/opt/tools")) state0).2
         = pre ++ [CallDownloadTool u (Some p) auth headers (Returned p);
                   CallChmodSync p "755" (Returned ())].
Proof.
  apply (targetdir_raw_fixed_install world_cached
           (with_targetDir cfg_raw (Some "/opt/tools")) state0);
    [discriminate | reflexivity].
Defined.

Lemma destdir_raw_cached_install_witness :
  (∃ pre u auth headers,
     (DestDirRev.download world_cached cfg_raw state0).2
     = pre ++ [CallDownloadTool u (Some "/home/runner/tmp/r0/foo") auth headers
                 (Returned "/home/runner/tmp/r0/foo");
               CallChmodSync "/home/runner/tmp/r0/foo" "755" (Returned ());
               CallCacheDir "/home/runner/tmp/r0" "foo" "1.2.0" "x64"
                 (Returned "/opt/hostedtoolcache/foo/1.2.0/x64");
               CallRmSync "/home/runner/tmp/r0" (Returned ())]) ∧
  "/home/runner/tmp/r0" ∉ fs (DestDirRev.download world_cached cfg_raw state0).1.2.
Proof.
  destruct (destdir_raw_cached_install world_cached cfg_raw state0
              (DestDirRev.download world_cached cfg_raw state0).1.2
              "/opt/hostedtoolcache/foo/1.2.0/x64"
              (DestDirRev.download world_cached cfg_raw state0).2
              eq_refl eq_refl
              (returned_run (DestDirRev.download world_cached cfg_raw) state0 _
                 ltac:(vm_compute; reflexivity)))
    as (Htrace & _ & _ & Hroot & _).
  split; [exact Htrace | exact Hroot].
Defined.

Lemma targetdir_raw_cached_install_witness :
  (∃ pre u auth headers,
     (TargetDirRev.download world_container (with_targetDir cfg_raw None) state0).2
     = pre ++ [CallDownloadTool u (Some "/home/runner/tmp/r0/foo") auth headers
                 (Returned "/home/runner/tmp/r0/foo");
               CallChmodSync "/home/runner/tmp/r0/foo" "755" (Returned ());
               CallCacheDir "/home/runner/tmp/r0" "foo" "1.2.0" "x64"
                 (Returned "/opt/hostedtoolcache/foo/1.2.0/x64");
               CallRmSync "/home/runner/tmp/r0" (Returned ())]) ∧
  "/home/runner/tmp/r0"
  ∉ fs (TargetDirRev.download world_container (with_targetDir cfg_raw None) state0).1.2.
Proof.
  destruct (targetdir_raw_cached_install world_container
              (with_targetDir cfg_raw None) state0
              (TargetDirRev.download world_container (with_targetDir cfg_raw None) state0).1.2
              "/opt/hostedtoolcache/foo/1.2.0/x64"
              (TargetDirRev.download world_container (with_targetDir cfg_raw None) state0).2
              eq_refl eq_refl
              (returned_run
                 (TargetDirRev.download world_container (with_targetDir cfg_raw None))
                 state0 _ ltac:(vm_compute; reflexivity)))
    as (Htrace & _ & _ & Hroot & _).
  split; [exact Htrace | exact Hroot].
Defined.
